(** * State migration of the vsphere_virtual_machine resource

    A shallow embedding of
    [vsphere/resource_vsphere_virtual_machine_migrate.go]: the dispatcher
    [resourceVSphereVirtualMachineMigrateState] and the two steps
    [migrateVSphereVirtualMachineStateV1] (schema version 0 to 1) and
    [migrateVSphereVirtualMachineStateV2] (schema version 1 to 2).

    Conventions.
    - A Go [string] is a [string] (a sequence of bytes).
    - A Go [map[string]string] is an [option (gmap string string)]; [None] is
      the nil map.  Reading a missing key, or reading the nil map, gives the
      empty string.
    - Go's [int] is taken to be 64 bits wide; [int], [int32] are integers of
      [Z] with the conversions (and their wrap-around) written out.
    - The record behind the [*terraform.InstanceState] pointer is mutated in
      place by the steps: the steps are state transformers over a [World]
      holding that record and the chronological list of log lines and
      calls to collaborators. *)

From Stdlib Require Import ZArith Lia Ascii String.
From Equations Require Import Equations.
From stdpp Require Import base option list strings gmap pretty.

Local Open Scope Z_scope.

(** ** The Go library functions the file uses *)

Module strings.

(** [strings.HasPrefix(s, prefix)]. *)
Fixpoint HasPrefix (s prefix : string) {struct prefix} : bool :=
  match prefix, s with
  | EmptyString, _ => true
  | String _ _, EmptyString => false
  | String a prefix', String b s' =>
      if Ascii.eqb a b then HasPrefix s' prefix' else false
  end.

(** [strings.HasSuffix(s, suffix)]: some tail of [s] is [suffix]. *)
Fixpoint HasSuffix (s suffix : string) : bool :=
  if String.eqb s suffix then true
  else match s with
       | EmptyString => false
       | String _ s' => HasSuffix s' suffix
       end.

(** [strings.Split(s, sep)] for a separator of one byte: the maximal
    pieces of [s] between occurrences of [sep]; never the empty list. *)
Fixpoint Split (s : string) (sep : ascii) : list string :=
  match s with
  | EmptyString => [EmptyString]
  | String c s' =>
      if Ascii.eqb c sep then EmptyString :: Split s' sep
      else match Split s' sep with
           | [] => [String c EmptyString]
           | p :: ps => String c p :: ps
           end
  end.

(** [strings.Join(elems, sep)]. *)
Fixpoint Join (elems : list string) (sep : string) : string :=
  match elems with
  | [] => EmptyString
  | [e] => e
  | e :: rest => e +:+ sep +:+ Join rest sep
  end.

End strings.

Module strconv.

Definition maxInt64 : Z := 2 ^ 63 - 1.
Definition minInt64 : Z := - 2 ^ 63.

Definition digit (c : ascii) : option Z :=
  let n := Z.of_N (N_of_ascii c) in
  if (48 <=? n) && (n <=? 57) then Some (n - 48) else None.

(** The value of a string of decimal digits, most significant first;
    [None] when a byte is not a digit. *)
Fixpoint digits (acc : Z) (s : string) : option Z :=
  match s with
  | EmptyString => Some acc
  | String c s' =>
      match digit c with
      | Some d => digits (10 * acc + d) s'
      | None => None
      end
  end.

Definition maxUint64 : Z := 2 ^ 64 - 1.

(** A leading sign picked off: whether it is a minus, and the rest. *)
Definition split_sign (s : string) : bool * string :=
  match s with
  | String "-" r => (true, r)
  | String "+" r => (false, r)
  | _ => (false, s)
  end.

(** What a parsing function returns: a number and no error, the syntax
    error (with 0), or the range error with the number beside it. *)
Inductive Parsed :=
| Number (n : Z)
| ErrSyntax
| ErrRange (n : Z).

Definition returned (p : Parsed) : Z :=
  match p with
  | Number n | ErrRange n => n
  | ErrSyntax => 0
  end.

(** The loop of [ParseUint(s, 10, 64)] over the bytes, [n] the number so
    far: a byte that is no digit is the syntax error; a digit that makes
    the number leave 64 bits is the range error, returned at once,
    whatever bytes follow. *)
Fixpoint ParseUint_loop (n : Z) (s : string) : Parsed :=
  match s with
  | EmptyString => Number n
  | String c s' =>
      match digit c with
      | None => ErrSyntax
      | Some d =>
          if maxUint64 ÷ 10 + 1 <=? n then ErrRange maxUint64
          else
            let n1 := 10 * n + d in
            if maxUint64 <? n1 then ErrRange maxUint64
            else ParseUint_loop n1 s'
      end
  end.

Definition ParseUint (s : string) : Parsed :=
  match s with
  | EmptyString => ErrSyntax
  | _ => ParseUint_loop 0 s
  end.

(** [ParseInt(s, 10, 0)]: the sign is picked off, the rest parsed as
    unsigned; a range error of [ParseUint] goes on to the range check. *)
Definition ParseInt (s : string) : Parsed :=
  match s with
  | EmptyString => ErrSyntax
  | _ =>
      let '(neg, body) := split_sign s in
      match ParseUint body with
      | ErrSyntax => ErrSyntax
      | Number un | ErrRange un =>
          if negb neg && (2 ^ 63 <=? un) then ErrRange (2 ^ 63 - 1)
          else if (neg : bool) && (2 ^ 63 <? un) then ErrRange (- 2 ^ 63)
          else Number (if (neg : bool) then - un else un)
      end
  end.

(** The value [strconv.Atoi(s)] returns, its error dropped (both calls of
    the file discard it).  Strings of 1 to 18 bytes take the fast path: a
    sign, then digits only, 0 on any other byte.  The others go through
    [ParseInt]: 0 on a syntax error, the nearest bound of [int] on a range
    error. *)
Definition Atoi (s : string) : Z :=
  let sLen := String.length s in
  if ((0 <? sLen) && (sLen <? 19))%nat then
    let '(neg, body) := split_sign s in
    match body with
    | EmptyString => 0
    | _ =>
        match digits 0 body with
        | None => 0
        | Some n => if (neg : bool) then - n else n
        end
    end
  else returned (ParseInt s).

End strconv.

(** [regexp.MustCompile("disk\\.[0-9]+\\.key").MatchString(k)]: the
    expression is not anchored, so it asks whether [k] has an occurrence of
    [disk.], one or more decimal digits, [.key]. *)
Module regexp.

Definition is_digit (c : ascii) : bool :=
  match strconv.digit c with Some _ => true | None => false end.

Fixpoint skip_digits (s : string) : string :=
  match s with
  | String c s' => if is_digit c then skip_digits s' else s
  | EmptyString => s
  end.

Fixpoint strip_prefix (prefix s : string) {struct prefix} : option string :=
  match prefix, s with
  | EmptyString, _ => Some s
  | String _ _, EmptyString => None
  | String a prefix', String b s' =>
      if Ascii.eqb a b then strip_prefix prefix' s' else None
  end.

(** An occurrence starts at the head of [s]. *)
Definition disk_key_here (s : string) : bool :=
  match strip_prefix "disk." s with
  | Some (String c r) =>
      is_digit c && strings.HasPrefix (skip_digits r) ".key"
  | _ => false
  end.

Fixpoint disk_key_MatchString (s : string) : bool :=
  if disk_key_here s then true
  else match s with
       | EmptyString => false
       | String _ s' => disk_key_MatchString s'
       end.

End regexp.

(** [fmt.Sprintf("%v", n)] for an [int]. *)
Definition Sprintf_int (n : Z) : string := pretty n.

(** [int32(x)] and [int(x)] on a 64-bit platform: two's complement
    truncation. *)
Definition int32 (x : Z) : Z := (x + 2 ^ 31) mod 2 ^ 32 - 2 ^ 31.
Definition int64 (x : Z) : Z := (x + 2 ^ 63) mod 2 ^ 64 - 2 ^ 63.

Definition in_int32 (x : Z) : Prop := - 2 ^ 31 <= x < 2 ^ 31.

(** ** Data model *)

(** [terraform.InstanceState], restricted to the two fields the file reads
    and writes. *)
Record InstanceState := {
  ID : string;
  Attributes : option (gmap string string)
}.

(** [m[k]] on a Go map: the zero value when the key (or the map) is absent. *)
Definition attr (m : option (gmap string string)) (k : string) : string :=
  match m with
  | Some a => default EmptyString (a !! k)
  | None => EmptyString
  end.

(** The two-valued form [_, ok := m[k]]. *)
Definition has_attr (m : option (gmap string string)) (k : string) : bool :=
  match m with
  | Some a => bool_decide (is_Some (a !! k))
  | None => false
  end.

(** The entries a [range] over the map visits; none for the nil map. *)
Definition entries (m : option (gmap string string)) : list (string * string) :=
  match m with
  | Some a => map_to_list a
  | None => []
  end.

(** A device of the hardware snapshot ([types.BaseVirtualDevice]): its key,
    the key of its controller, and whether it is a SCSI controller
    ([types.BaseVirtualSCSIController]), then with its bus number.  The
    three numbers are [int32] in govmomi. *)
Inductive DeviceKind :=
| SCSIController (BusNumber : Z)
| OtherDevice.

Record VirtualDevice := {
  Key : Z;
  ControllerKey : Z;
  Kind : DeviceKind
}.

Definition device_wf (d : VirtualDevice) : Prop :=
  in_int32 (Key d) ∧ in_int32 (ControllerKey d) ∧
  match Kind d with SCSIController b => in_int32 b | OtherDevice => True end.

(** [object.VirtualDeviceList.FindByKey]: the first device with that key,
    nil when there is none. *)
Fixpoint FindByKey (l : list VirtualDevice) (key : Z) : option VirtualDevice :=
  match l with
  | [] => None
  | device :: l' => if Key device =? key then Some device else FindByKey l' key
  end.

(** The [schema.ResourceData] of step V2 is a scratch object: the values
    written to it, by key. *)
Definition ResourceData := gmap string string.

(** What the code does besides changing the record, in order: its log lines
    and its calls to the collaborators. *)
Inductive Event :=
| LogOldState (version : Z) (os : InstanceState)
| LogCompleted (version : Z) (os : InstanceState)
| LogNewState (version : Z) (os : InstanceState)
| LogMigrateUUID (name id : string)
| CallFromUUID (uuid : string)
| CallProperties
| CallDiskImportOperation (d : ResourceData) (l : list VirtualDevice)
| LogMigrationComplete
| LogNothingToMigrate
| LogBefore (a : option (gmap string string))
| LogAfter (a : option (gmap string string)).

(** The record behind the pointer and the events so far. *)
Record World := {
  cell : InstanceState;
  trace : list Event
}.

(** A pointer to the record of the world, or nil. *)
Inductive Ptr := Nil | Ref.

(** A Go function returning [error]: [Ok] is the nil error. *)
Inductive Res (A : Type) :=
| Ok (a : A)
| Error (msg : string).
Arguments Ok {A} a.
Arguments Error {A} msg.

Definition M (A : Type) : Type := World → World * Res A.

Definition ret {A} (a : A) : M A := λ w, (w, Ok a).
Definition fail {A} (msg : string) : M A := λ w, (w, Error msg).
Definition bind {A B} (m : M A) (k : A → M B) : M B :=
  λ w, match m w with
       | (w', Ok a) => k a w'
       | (w', Error e) => (w', Error e)
       end.
Definition get : M InstanceState := λ w, (w, Ok (cell w)).
Definition put (s : InstanceState) : M unit :=
  λ w, ({| cell := s; trace := trace w |}, Ok tt).
Definition emit (e : Event) : M unit :=
  λ w, ({| cell := cell w; trace := trace w ++ [e] |}, Ok tt).


Global Instance M_ret : MRet M := @ret.
Global Instance M_bind : MBind M := λ A B k m, bind m k.

(** [is.Attributes[k] = v]; a write to the nil map panics in Go, and no
    path of the file reaches one: the model leaves the nil map as it is. *)
Definition set_attr (k v : string) : M unit :=
  st ← get;
  put {| ID := ID st; Attributes := insert k v <$> Attributes st |}.

(** ** Step V1: schema version 0 to 1 *)

(** For a key [disk.<index>.size] of three components, the key
    [disk.<index>.controller_type]; lines 164 to 169. *)
Definition controller_type_key (k : string) : option string :=
  if strings.HasPrefix k "disk." && strings.HasSuffix k ".size" then
    match strings.Split k "." with
    | [p0; p1; _] => Some (strings.Join [p0; p1; "controller_type"] ".")
    | _ => None
    end
  else None.

(** The body of the loop of lines 163 to 174, for the key [k]. *)
Definition backfill_controller_type (k : string) : M unit :=
  match controller_type_key k with
  | Some s =>
      st ← get;
      if has_attr (Attributes st) s then ret tt else set_attr s "scsi"
  | None => ret tt
  end.

Fixpoint for_each {A} (body : A → M unit) (l : list A) : M unit :=
  match l with
  | [] => ret tt
  | x :: l' => body x ;; for_each body l'
  end.

Section Migration.

(** [terraform.InstanceState.Empty] belongs to the Terraform library. *)
Variable Empty : InstanceState → bool.

(** The loop ranges over the keys of the map while it adds keys to it.
    Go leaves open whether an added key is visited; every added key is a
    [controller_type] key, on which the body does nothing
    ([backfill_added_key] below), so the keys at the start of the loop
    are enough. *)
Definition migrateVSphereVirtualMachineStateV1 : M unit :=
  st ← get;
  if Empty st || bool_decide (Attributes st = None) then
    emit LogNothingToMigrate
  else
    emit (LogBefore (Attributes st)) ;;
    (if String.eqb (attr (Attributes st) "skip_customization") EmptyString then
       set_attr "skip_customization" "false"
     else ret tt) ;;
    (st ← get;
     if String.eqb (attr (Attributes st) "enable_disk_uuid") EmptyString then
       set_attr "enable_disk_uuid" "false"
     else ret tt) ;;
    (st ← get;
     for_each backfill_controller_type (entries (Attributes st)).*1) ;;
    st ← get;
    emit (LogAfter (Attributes st)).

(** ** Step V2: schema version 1 to 2 *)

(** The collaborators reached through [meta] (a [*VSphereClient]; the
    type assertion of line 63 is taken to hold): the two lookups of
    package [virtualmachine], the disk import of package [virtualdevice]
    with the scratch [ResourceData] as it leaves it, and the default of a
    field of the resource schema as [fmt.Sprintf("%v", _)] prints it. *)
Variable VirtualMachine : Type.
Variable FromUUID : string → Res VirtualMachine.
Variable Properties : VirtualMachine → Res (list VirtualDevice).
Variable DiskImportOperation :
  ResourceData → list VirtualDevice → ResourceData * Res unit.
Variable schemaDefault : string → string.

Definition call_FromUUID (id : string) : M VirtualMachine :=
  emit (CallFromUUID id) ;;
  match FromUUID id with
  | Ok vm => mret vm
  | Error err => fail ("error fetching virtual machine: " +:+ err)
  end.

Definition call_Properties (vm : VirtualMachine) : M (list VirtualDevice) :=
  emit CallProperties ;;
  match Properties vm with
  | Ok props => mret props
  | Error err =>
      fail ("error fetching virtual machine properties: " +:+ err)
  end.

Definition call_DiskImportOperation
    (d : ResourceData) (l : list VirtualDevice) : M ResourceData :=
  emit (CallDiskImportOperation d l) ;;
  match DiskImportOperation d l with
  | (d', Ok _) => mret d'
  | (_, Error err) => fail err
  end.

(** The body of the loop of lines 93 to 112 for one entry of the map:
    the new value of [maxBus]. *)
Definition scan_bus (l : list VirtualDevice) (maxBus : Z)
    (kv : string * string) : Z :=
  if negb (regexp.disk_key_MatchString kv.1) then maxBus
  else
    let key := strconv.Atoi kv.2 in
    if key <? 1 then maxBus
    else
      match FindByKey l (int32 key) with
      | None => maxBus
      | Some device =>
          match FindByKey l (ControllerKey device) with
          | None => maxBus
          | Some ctlr =>
              match Kind ctlr with
              | SCSIController BusNumber =>
                  if int32 maxBus <? BusNumber then BusNumber else maxBus
              | OtherDevice => maxBus
              end
          end
      end.

(** Lines 90 to 112: the final [maxBus]. *)
Definition derive_maxBus (a : option (gmap string string))
    (l : list VirtualDevice) : Z :=
  let diskCnt := strconv.Atoi (attr a "disk.#") in
  foldl (scan_bus l) (diskCnt ÷ 15) (entries a).

Definition migrateVSphereVirtualMachineStateV2 : M unit :=
  st ← get;
  let name := ID st in
  let id := attr (Attributes st) "uuid" in
  if String.eqb id EmptyString then
    fail ("resource ID " +:+ name +:+ " has no UUID. State cannot be migrated")
  else
    emit (LogMigrateUUID name id) ;;
    vm ← call_FromUUID id;
    props ← call_Properties vm;
    let maxBus := derive_maxBus (Attributes st) props in
    let d : ResourceData :=
      {[ "scsi_controller_count" := Sprintf_int (int64 (maxBus + 1)) ]} in
    _ ← call_DiskImportOperation d props;
    let guestNetTimeout :=
      if String.eqb (attr (Attributes st) "wait_for_guest_net") "false"
      then "-1"
      else schemaDefault "wait_for_guest_net_timeout" in
    (st ← get; put {| ID := ID st; Attributes := Some ∅ |}) ;;
    (st ← get; put {| ID := id; Attributes := Attributes st |}) ;;
    set_attr "imported" "true" ;;
    set_attr "scsi_controller_count" (schemaDefault "scsi_controller_count") ;;
    set_attr "force_power_off" (schemaDefault "force_power_off") ;;
    set_attr "migrate_wait_timeout" (schemaDefault "migrate_wait_timeout") ;;
    set_attr "shutdown_wait_timeout" (schemaDefault "shutdown_wait_timeout") ;;
    set_attr "wait_for_guest_net_timeout" guestNetTimeout ;;
    set_attr "scsi_controller_count" (Sprintf_int (int64 (maxBus + 1))) ;;
    emit LogMigrationComplete.

(** ** The dispatcher *)

(** The [switch] of lines 31 to 42: the step registered for a version. *)
Definition migrateFunc (version : Z) : option (M unit) :=
  if version =? 1 then Some migrateVSphereVirtualMachineStateV2
  else if version =? 0 then Some migrateVSphereVirtualMachineStateV1
  else None.

(** Case analysis that keeps the equation. *)
Definition inspect {A} (x : A) : {y : A | x = y} := exist _ x eq_refl.

(** The pointer [os] is nil or points to the record of the world; the
    function returns a pointer and an error, [Error] standing for
    [(nil, err)]. *)
Equations? resourceVSphereVirtualMachineMigrateState
    (version : Z) (os : Ptr) (w : World) : World * Res Ptr
    by wf (Z.to_nat (2 - version)) lt :=
  resourceVSphereVirtualMachineMigrateState version Nil w := (w, Ok Nil);
  resourceVSphereVirtualMachineMigrateState version Ref w
    with Empty (cell w) := {
    | true := (w, Ok Ref);
    | false with inspect (migrateFunc version) := {
      | exist _ None _ :=
          ((emit (LogCompleted version (cell w)) w).1, Ok Ref);
      | exist _ (Some f) Hf
          with f (emit (LogOldState version (cell w)) w).1 := {
        | (w', Error err) := (w', Error err);
        | (w', Ok _) :=
            resourceVSphereVirtualMachineMigrateState (version + 1) Ref
              (emit (LogNewState (version + 1) (cell w')) w').1 } } }.
Proof.
  unfold migrateFunc in Hf.
  destruct (Z.eqb_spec version 1), (Z.eqb_spec version 0); simplify_eq; lia.
Qed.

End Migration.

(** [terraform.InstanceState.Empty], a method of the Terraform library
    outside the file: the state is nil or its [ID] is the empty string.
    The attribute map plays no part in it, which is why line 148 tests
    [is.Attributes == nil] beside it. *)
Definition InstanceState_Empty (s : InstanceState) : bool :=
  String.eqb (ID s) EmptyString.

(** ** Vocabulary of the statements *)

(** A string has no ['.']. *)
Definition dotless (s : string) : Prop := strings.Split s "." = [s].

(** The keys step V1 looks for, and the keys it derives from them. *)
Definition size_key (index : string) : string :=
  "disk." +:+ index +:+ ".size".
Definition ctype_key (index : string) : string :=
  "disk." +:+ index +:+ ".controller_type".


(** The attribute map step V1 leaves, as a function of the map it finds:
    the two flags, then the loop over the keys ([V1_run] relates it to the
    step). *)
Definition default_false (k : string) (a : gmap string string) :
    gmap string string :=
  if String.eqb (default EmptyString (a !! k)) EmptyString
  then <[k:="false"]> a else a.

Definition backfill (a : gmap string string) (k : string) :
    gmap string string :=
  match controller_type_key k with
  | Some s => if bool_decide (is_Some (a !! s)) then a else <[s:="scsi"]> a
  | None => a
  end.

Definition V1_flags (a : gmap string string) : gmap string string :=
  default_false "enable_disk_uuid" (default_false "skip_customization" a).

Definition V1_attributes (a : gmap string string) : gmap string string :=
  foldl backfill (V1_flags a) (map_to_list (V1_flags a)).*1.

(** The attribute map step V2 leaves on success (lines 130 to 141), for
    the final [maxBus] and the timeout of lines 121 to 127. *)
Definition V2_attributes (schemaDefault : string → string)
    (maxBus : Z) (guestNetTimeout : string) : gmap string string :=
  <["scsi_controller_count" := Sprintf_int (int64 (maxBus + 1))]>
  (<["wait_for_guest_net_timeout" := guestNetTimeout]>
  (<["shutdown_wait_timeout" := schemaDefault "shutdown_wait_timeout"]>
  (<["migrate_wait_timeout" := schemaDefault "migrate_wait_timeout"]>
  (<["force_power_off" := schemaDefault "force_power_off"]>
  (<["scsi_controller_count" := schemaDefault "scsi_controller_count"]>
  (<["imported" := "true"]> ∅)))))).

(** The six fields step V2 sets. *)
Definition V2_fields : list string :=
  ["imported"; "scsi_controller_count"; "force_power_off";
   "migrate_wait_timeout"; "shutdown_wait_timeout";
   "wait_for_guest_net_timeout"].

(** An attribute is absent or is the empty string. *)
Definition absent_or_empty (m : option (gmap string string)) (k : string) :
    Prop :=
  match m with
  | None => True
  | Some a => a !! k = None ∨ a !! k = Some EmptyString
  end.

(** The scratch [ResourceData] of lines 114 and 115, handed to the disk
    import. *)
Definition scratch (maxBus : Z) : ResourceData :=
  {[ "scsi_controller_count" := Sprintf_int (int64 (maxBus + 1)) ]}.

(** The timeout of lines 121 to 127. *)
Definition guestNetTimeout (schemaDefault : string → string)
    (a : option (gmap string string)) : string :=
  if String.eqb (attr a "wait_for_guest_net") "false" then "-1"
  else schemaDefault "wait_for_guest_net_timeout".

(** ** The derived bus count in the words of the spec *)

(** The number a string denotes: an optional sign and at least one
    decimal digit, nothing else. *)
Definition decimal (s : string) : option Z :=
  let '(neg, body) := strconv.split_sign s in
  match body with
  | EmptyString => None
  | _ =>
      match strconv.digits 0 body with
      | None => None
      | Some n => Some (if (neg : bool) then - n else n)
      end
  end.

(** The integer value of an attribute, an unparsable or absent value
    being 0. *)
Definition int_value (s : string) : Z := default 0 (decimal s).

Fixpoint all_digits (s : string) : bool :=
  match s with
  | EmptyString => true
  | String c s' => regexp.is_digit c && all_digits s'
  end.

(** The key is [disk.<index>.key], the index a decimal number. *)
Definition disk_key_shape (k : string) : Prop :=
  ∃ index, index ≠ EmptyString ∧ all_digits index = true ∧
           k = "disk." +:+ index +:+ ".key".

(** The key has [disk.<index>.key] somewhere in it. *)
Definition disk_key_occurrence (k : string) : Prop :=
  ∃ pre index post, index ≠ EmptyString ∧ all_digits index = true ∧
                    k = pre +:+ "disk." +:+ index +:+ ".key" +:+ post.

(** A decision of [disk_key_shape] ([whole_disk_key_shape] below). *)
Fixpoint whole_index_key (s : string) : bool :=
  match s with
  | String c s' =>
      if regexp.is_digit c then whole_index_key s'
      else String.eqb s ".key"
  | EmptyString => false
  end.

Definition whole_disk_key (k : string) : bool :=
  match regexp.strip_prefix "disk." k with
  | Some (String c r) => regexp.is_digit c && whole_index_key r
  | _ => false
  end.

(** The bus number an entry of the attribute map reaches: its key
    matches, its value is a device key that is positive, that device is in
    the snapshot, so is the controller it refers to, and the controller is
    a SCSI controller. *)
Definition reached_bus (matches : string → bool) (l : list VirtualDevice)
    (kv : string * string) : option Z :=
  if matches kv.1 then
    let key := int_value kv.2 in
    if 0 <? key then
      device ← FindByKey l key;
      ctlr ← FindByKey l (ControllerKey device);
      match Kind ctlr with
      | SCSIController BusNumber => Some BusNumber
      | OtherDevice => None
      end
    else None
  else None.

(** The maximum of the disk count divided by 15 and the bus numbers
    reached, for a reading [matches] of which keys count. *)
Definition DerivedBusCount (matches : string → bool)
    (a : option (gmap string string)) (l : list VirtualDevice) : Z :=
  foldr Z.max (int_value (attr a "disk.#") ÷ 15)
    (omap (reached_bus matches l) (entries a)).

(** The values [strconv.Atoi] returns for [disk.#], divided by 15, and
    for the attributes whose key has [disk.<index>.key] in it fit the 32
    bits of the comparisons and look-ups of lines 98 to 109. *)
Definition attributes_in_int32 (a : option (gmap string string)) : Prop :=
  in_int32 (strconv.Atoi (attr a "disk.#") ÷ 15) ∧
  ∀ kv, kv ∈ entries a → disk_key_occurrence kv.1 →
        strconv.Atoi kv.2 < 2 ^ 31.

(** The same as a check that computes. *)
Definition attributes_in_int32_check (a : option (gmap string string)) :
    bool :=
  let quotient := strconv.Atoi (attr a "disk.#") ÷ 15 in
  (- 2 ^ 31 <=? quotient) && (quotient <? 2 ^ 31) &&
  forallb (λ kv, implb (regexp.disk_key_MatchString kv.1)
                   (strconv.Atoi kv.2 <? 2 ^ 31))
    (entries a).

(** ** Collaborators for the examples *)

Module demo.

Definition FromUUID (uuid : string) : Res unit :=
  if String.eqb uuid "gone" then Error "not found" else Ok tt.

Definition devices (bus : Z) : list VirtualDevice :=
  [ {| Key := 2000; ControllerKey := 1000; Kind := OtherDevice |};
    {| Key := 1000; ControllerKey := 100; Kind := SCSIController bus |} ].

Definition Properties (bus : Z) (vm : unit) : Res (list VirtualDevice) :=
  Ok (devices bus).

(** A disk import that records one disk in the [ResourceData]. *)
Definition DiskImportOperation (d : ResourceData) (l : list VirtualDevice) :
    ResourceData * Res unit :=
  (<["disk.0.key" := "2000"]> d, Ok tt).

Definition schemaDefault (field : string) : string :=
  if String.eqb field "wait_for_guest_net_timeout" then "5"
  else if String.eqb field "scsi_controller_count" then "1"
  else if String.eqb field "force_power_off" then "true"
  else if String.eqb field "migrate_wait_timeout" then "30"
  else if String.eqb field "shutdown_wait_timeout" then "3"
  else "<nil>".

Definition record (id : string) (l : list (string * string)) : World :=
  {| cell := {| ID := id; Attributes := Some (list_to_map l) |};
     trace := [] |}.

Definition V2 (bus : Z) : M unit :=
  migrateVSphereVirtualMachineStateV2 unit FromUUID (Properties bus)
    DiskImportOperation schemaDefault.

Definition Migrate (bus : Z) : Z → Ptr → World → World * Res Ptr :=
  resourceVSphereVirtualMachineMigrateState InstanceState_Empty unit
    FromUUID (Properties bus) DiskImportOperation schemaDefault.

End demo.

(** ** Vocabulary of the further properties *)

(** The bus number the loop of lines 93 to 112 compares [maxBus] with for
    an entry of the map, with the conversions of the code; [None] when the
    body leaves by a [continue] or the controller is not a SCSI
    controller. *)
Definition scanned_bus (l : list VirtualDevice) (kv : string * string) :
    option Z :=
  if negb (regexp.disk_key_MatchString kv.1) then None
  else
    let key := strconv.Atoi kv.2 in
    if key <? 1 then None
    else
      device ← FindByKey l (int32 key);
      ctlr ← FindByKey l (ControllerKey device);
      match Kind ctlr with
      | SCSIController BusNumber => Some BusNumber
      | OtherDevice => None
      end.

(** An event is a call to a collaborator, not a log line. *)
Definition is_call (e : Event) : bool :=
  match e with
  | CallFromUUID _ | CallProperties | CallDiskImportOperation _ _ => true
  | _ => false
  end.

(** A key is one the loop of step V1 derives from some key. *)
Definition derived_key (k : string) : Prop :=
  ∃ k0, controller_type_key k0 = Some k.

(** One of the two flags of step V1. *)
Definition is_flag (k : string) : Prop :=
  k = "skip_customization" ∨ k = "enable_disk_uuid".
(** * Properties *)

(** ** The library functions on examples *)

Example Atoi_ex1 : strconv.Atoi "20" = 20. Proof. reflexivity. Qed.
Example Atoi_ex2 : strconv.Atoi "-7" = -7. Proof. reflexivity. Qed.
Example Atoi_ex3 : strconv.Atoi EmptyString = 0. Proof. reflexivity. Qed.
Example Atoi_ex4 : strconv.Atoi "1x" = 0. Proof. reflexivity. Qed.
Example Atoi_ex5 : strconv.Atoi "99999999999999999999" = strconv.maxInt64.
Proof. reflexivity. Qed.
Example Split_ex1 : strings.Split "disk.0.size" "." = ["disk"; "0"; "size"].
Proof. reflexivity. Qed.
Example Split_ex2 : strings.Split "disk..size." "." = ["disk"; EmptyString; "size"; EmptyString].
Proof. reflexivity. Qed.
Example Match_ex1 : regexp.disk_key_MatchString "disk.12.key" = true.
Proof. reflexivity. Qed.
Example Match_ex2 : regexp.disk_key_MatchString "xdisk.1.keyname" = true.
Proof. reflexivity. Qed.
Example Match_ex3 : regexp.disk_key_MatchString "disk..key" = false.
Proof. reflexivity. Qed.
Example Sprintf_ex : Sprintf_int 42 = "42" ∧ Sprintf_int (-1) = "-1".
Proof. split; vm_compute; reflexivity. Qed.

(** ** Strings *)

Module string_facts.
Import strings.

Lemma app_cons a s t : String a s +:+ t = String a (s +:+ t).
Proof. reflexivity. Qed.

Lemma app_nil_l t : EmptyString +:+ t = t.
Proof. reflexivity. Qed.

Lemma app_assoc s t u : (s +:+ t) +:+ u = s +:+ (t +:+ u).
Proof.
  induction s as [|a s IH]; [reflexivity|].
  rewrite !app_cons. by f_equal.
Qed.

Lemma Split_not_nil s sep : Split s sep ≠ [].
Proof.
  destruct s as [|c s]; simpl; [done|].
  destruct (Ascii.eqb c sep); [done|]. by destruct (Split s sep).
Qed.

(** Splitting distributes over a separator in the middle. *)
Lemma Split_app s t sep :
  Split (s +:+ String sep t) sep = Split s sep ++ Split t sep.
Proof.
  induction s as [|c s IH].
  - rewrite app_nil_l. simpl. by rewrite Ascii.eqb_refl.
  - rewrite app_cons. simpl. destruct (Ascii.eqb c sep).
    + by rewrite IH.
    + rewrite IH. pose proof (Split_not_nil s sep).
      by destruct (Split s sep).
Qed.

(** No piece of a split has the separator in it. *)
Lemma Split_pieces s sep : Forall (λ p, Split p sep = [p]) (Split s sep).
Proof.
  induction s as [|c s IH]; simpl.
  - by repeat constructor.
  - destruct (Ascii.eqb c sep) eqn:Hc.
    + by constructor.
    + pose proof (Split_not_nil s sep).
      destruct (Split s sep) as [|p ps]; [done|].
      inversion IH as [|?? Hp Hps]; subst. constructor; [|done].
      simpl. by rewrite Hc, Hp.
Qed.

(** Joining the pieces with the separator gives the string back. *)
Lemma Join_Split s sep : Join (Split s sep) (String sep EmptyString) = s.
Proof.
  induction s as [|c s IH]; simpl; [done|].
  destruct (Ascii.eqb_spec c sep) as [->|Hne].
  - pose proof (Split_not_nil s sep).
    destruct (Split s sep) as [|p ps] eqn:Hs; [done|].
    change (Join (EmptyString :: p :: ps) (String sep EmptyString))
      with (EmptyString +:+ String sep EmptyString +:+ Join (p :: ps) (String sep EmptyString)).
    by rewrite IH.
  - pose proof (Split_not_nil s sep).
    destruct (Split s sep) as [|p ps] eqn:Hs; [done|].
    destruct ps as [|q ps].
    + simpl in *. by rewrite IH.
    + change (Join (String c p :: q :: ps) (String sep EmptyString))
        with (String c p +:+ String sep EmptyString +:+ Join (q :: ps) (String sep EmptyString)).
      change (Join (p :: q :: ps) (String sep EmptyString))
        with (p +:+ String sep EmptyString +:+ Join (q :: ps) (String sep EmptyString)) in IH.
      by rewrite app_cons, IH.
Qed.

Lemma HasPrefix_app s prefix :
  HasPrefix s prefix = true ↔ ∃ r, s = prefix +:+ r.
Proof.
  revert s. induction prefix as [|a p IH]; intros s; simpl.
  - split; [by exists s|done].
  - destruct s as [|b s].
    + split; [done|]. by intros [r Hr].
    + destruct (Ascii.eqb_spec a b) as [->|Hne].
      * rewrite IH. split; intros [r Hr]; exists r.
        -- by rewrite app_cons, Hr.
        -- rewrite app_cons in Hr. by simplify_eq.
      * split; [done|]. intros [r Hr]. rewrite app_cons in Hr.
        by simplify_eq.
Qed.

Lemma HasSuffix_nil suffix :
  HasSuffix EmptyString suffix = String.eqb EmptyString suffix.
Proof. by destruct suffix. Qed.

Lemma HasSuffix_cons a s suffix :
  HasSuffix (String a s) suffix =
  String.eqb (String a s) suffix || HasSuffix s suffix.
Proof.
  change (HasSuffix (String a s) suffix)
    with (if String.eqb (String a s) suffix then true
          else HasSuffix s suffix).
  by destruct (String.eqb (String a s) suffix).
Qed.

Lemma HasSuffix_app s suffix :
  HasSuffix s suffix = true ↔ ∃ r, s = r +:+ suffix.
Proof.
  induction s as [|a s IH].
  - rewrite HasSuffix_nil.
    destruct (String.eqb_spec EmptyString suffix) as [<-|Hne].
    + split; [by exists EmptyString|done].
    + split; [done|]. intros [[|??] Hr]; [by rewrite app_nil_l in Hr|].
      by rewrite app_cons in Hr.
  - rewrite HasSuffix_cons.
    destruct (String.eqb_spec (String a s) suffix) as [<-|Hne]; simpl.
    + split; [by exists EmptyString|done].
    + rewrite IH. split; intros [r Hr].
      * exists (String a r). by rewrite app_cons, Hr.
      * destruct r as [|b r]; [by rewrite app_nil_l in Hr|].
        rewrite app_cons in Hr. simplify_eq. by exists r.
Qed.

Lemma Split_size_key index :
  Split (size_key index) "." = ["disk"] ++ Split index "." ++ ["size"].
Proof.
  unfold size_key.
  change ("disk." +:+ index +:+ ".size")
    with ("disk" +:+ String "." (index +:+ String "." "size")).
  by rewrite !Split_app.
Qed.

Lemma Split_ctype_key index :
  Split (ctype_key index) "." =
  ["disk"] ++ Split index "." ++ ["controller_type"].
Proof.
  unfold ctype_key.
  change ("disk." +:+ index +:+ ".controller_type")
    with ("disk" +:+ String "." (index +:+ String "." "controller_type")).
  by rewrite !Split_app.
Qed.

(** A key of the shape [disk.<index>.size] gives [disk.<index>.controller_type]. *)
Lemma controller_type_key_size index :
  dotless index →
  controller_type_key (size_key index) = Some (ctype_key index).
Proof.
  intros Hi. unfold controller_type_key.
  assert (HasPrefix (size_key index) "disk." = true) as ->.
  { apply HasPrefix_app. by eexists. }
  assert (HasSuffix (size_key index) ".size" = true) as ->.
  { apply HasSuffix_app. exists ("disk." +:+ index).
    unfold size_key. by rewrite app_assoc. }
  rewrite Split_size_key, Hi. reflexivity.
Qed.

(** Only such keys give one. *)
Lemma controller_type_key_inv k s :
  controller_type_key k = Some s →
  ∃ index, dotless index ∧ k = size_key index ∧ s = ctype_key index.
Proof.
  unfold controller_type_key.
  destruct (HasPrefix k "disk.") eqn:Hp; [|done].
  destruct (HasSuffix k ".size") eqn:Hs; [|done]. simpl.
  apply HasPrefix_app in Hp as [r ->].
  apply HasSuffix_app in Hs as [q Hq].
  change ("disk." +:+ r) with ("disk" +:+ String "." r) in *.
  change (q +:+ ".size") with (q +:+ String "." "size") in Hq.
  rewrite Split_app.
  pose proof (f_equal (λ x, Split x ".") Hq) as Hsp. simpl in Hsp.
  rewrite !Split_app in Hsp.
  change (Split "disk" ".") with ["disk"] in *.
  change (Split "size" ".") with ["size"] in Hsp.
  pose proof (Split_pieces q ".") as Hpieces.
  pose proof (Join_Split q ".") as Hjoin.
  destruct (Split r ".") as [|p1 [|p2 [|??]]]; try done.
  destruct (Split q ".") as [|q0 [|q1 [|q2 l]]]; simpl in Hsp; try done.
  2: { injection Hsp as _ _ _ Hl. by destruct l. }
  injection Hsp as Hq0 Hq1 Hp2. subst q0 p1 p2. intros [= <-].
  exists q1. split; [by inversion Hpieces as [|?? _ [|?? ? _]]|].
  split; [|done].
  unfold size_key. rewrite Hq, <- Hjoin.
  change (Join ["disk"; q1] ".") with ("disk" +:+ "." +:+ q1).
  by rewrite !app_assoc.
Qed.

(** A derived key is not itself a key the loop acts on. *)
Lemma controller_type_key_ctype index :
  controller_type_key (ctype_key index) = None.
Proof.
  destruct (controller_type_key (ctype_key index)) as [s|] eqn:Hk; [|done].
  apply controller_type_key_inv in Hk as (i & Hi & Hk & _).
  pose proof (f_equal (λ x, Split x ".") Hk) as Hsp. cbv beta in Hsp.
  rewrite Split_size_key, Split_ctype_key in Hsp.
  apply (f_equal (@rev string)) in Hsp.
  rewrite !rev_app_distr in Hsp. by simplify_eq/=.
Qed.

End string_facts.

(** ** Step V1 *)

Section V1_facts.
Import string_facts.
Variable Empty : InstanceState → bool.

Lemma for_each_backfill ks w a :
  Attributes (cell w) = Some a →
  for_each backfill_controller_type ks w =
  ({| cell := {| ID := ID (cell w);
                 Attributes := Some (foldl backfill a ks) |};
      trace := trace w |}, Ok tt).
Proof.
  revert w a. induction ks as [|k ks IH]; intros [[id oa] tr] a Ha;
    simpl in Ha; subst oa; [done|].
  cbn [for_each foldl]. unfold mbind, M_bind, bind.
  unfold backfill_controller_type, backfill.
  destruct (controller_type_key k) as [s|]; [|by apply IH].
  unfold mbind, M_bind, bind, get, set_attr; simpl.
  destruct (bool_decide (is_Some (a !! s))); by apply IH.
Qed.

(** The step on a record that is not empty and has an attribute map. *)
Lemma V1_run w a :
  Empty (cell w) = false →
  Attributes (cell w) = Some a →
  migrateVSphereVirtualMachineStateV1 Empty w =
  ({| cell := {| ID := ID (cell w);
                 Attributes := Some (V1_attributes a) |};
      trace := trace w ++
               [LogBefore (Some a); LogAfter (Some (V1_attributes a))] |},
   Ok tt).
Proof.
  destruct w as [[id oa] tr]; simpl. intros HE ->.
  unfold migrateVSphereVirtualMachineStateV1, mbind, M_bind, bind, get.
  simpl. rewrite HE. simpl.
  unfold V1_attributes, V1_flags, default_false, set_attr.
  unfold mbind, M_bind, bind, get, put, mret, M_ret, ret. simpl.
  destruct (String.eqb (default EmptyString (a !! "skip_customization"))
              EmptyString); simpl;
    (match goal with
     | |- context [String.eqb (default EmptyString (?m !! "enable_disk_uuid"))
                     EmptyString] =>
         destruct (String.eqb (default EmptyString (m !! "enable_disk_uuid"))
                     EmptyString)
     end); simpl;
    (erewrite for_each_backfill by reflexivity); unfold emit; simpl;
    by rewrite <- List.app_assoc.
Qed.

(** The step on an empty record, or one without attribute map: it only
    logs. *)
Lemma V1_noop w :
  Empty (cell w) = true ∨ Attributes (cell w) = None →
  migrateVSphereVirtualMachineStateV1 Empty w =
  ({| cell := cell w; trace := trace w ++ [LogNothingToMigrate] |}, Ok tt).
Proof.
  intros H.
  unfold migrateVSphereVirtualMachineStateV1, mbind, M_bind, bind, get.
  assert (Empty (cell w) || bool_decide (Attributes (cell w) = None) = true)
    as ->; [|done].
  destruct H as [->| ->]; [done|]. by rewrite orb_true_r.
Qed.

End V1_facts.

Section V1_attribute_facts.
Import string_facts.
Implicit Types a : gmap string string.

Lemma keys_spec a k : k ∈ (map_to_list a).*1 ↔ is_Some (a !! k).
Proof.
  rewrite list_elem_of_fmap. split.
  - intros [[k' v] [-> H%elem_of_map_to_list]]. by exists v.
  - intros [v Hv]. exists (k, v). by rewrite elem_of_map_to_list.
Qed.

(** One round of the loop, by key. *)
Lemma backfill_lookup a k j :
  backfill a k !! j =
  match a !! j with
  | Some v => Some v
  | None => if decide (controller_type_key k = Some j) then Some "scsi"
            else None
  end.
Proof.
  unfold backfill. destruct (controller_type_key k) as [s|] eqn:Hk.
  - case_bool_decide as Hs.
    + destruct (a !! j) eqn:Hj; [done|]. case_decide; [|done].
      simplify_eq. rewrite Hj in Hs. by destruct Hs.
    + destruct (decide (s = j)) as [->|Hne].
      * rewrite lookup_insert_eq. destruct (a !! j) eqn:Hj.
        -- destruct Hs. by eexists.
        -- by rewrite decide_True.
      * rewrite lookup_insert_ne by done.
        destruct (a !! j); [done|]. rewrite decide_False; [done|congruence].
  - destruct (a !! j); [done|]. by rewrite decide_False.
Qed.

Lemma foldl_backfill_present ks a j v :
  a !! j = Some v → foldl backfill a ks !! j = Some v.
Proof.
  revert a. induction ks as [|k ks IH]; intros a Hj; [done|].
  simpl. apply IH. by rewrite backfill_lookup, Hj.
Qed.

Lemma foldl_backfill_added ks a j k :
  a !! j = None → k ∈ ks → controller_type_key k = Some j →
  foldl backfill a ks !! j = Some "scsi".
Proof.
  revert a. induction ks as [|k' ks IH]; intros a Hj Hin Hk.
  - by apply elem_of_nil in Hin.
  - simpl. apply elem_of_cons in Hin as [<-|Hin].
    + apply foldl_backfill_present.
      by rewrite backfill_lookup, Hj, decide_True.
    + destruct (decide (controller_type_key k' = Some j)) as [Hk'|Hk'].
      * apply foldl_backfill_present.
        by rewrite backfill_lookup, Hj, decide_True.
      * apply IH; [|done..]. by rewrite backfill_lookup, Hj, decide_False.
Qed.

Lemma foldl_backfill_absent ks a j :
  a !! j = None → (∀ k, k ∈ ks → controller_type_key k ≠ Some j) →
  foldl backfill a ks !! j = None.
Proof.
  revert a. induction ks as [|k ks IH]; intros a Hj Hks; [done|].
  simpl. apply IH.
  - rewrite backfill_lookup, Hj, decide_False; [done|].
    apply Hks. by left.
  - intros k' Hk'. apply Hks. by right.
Qed.

(** The loop changes nothing when every derived key is there. *)
Lemma foldl_backfill_id ks a :
  (∀ k s, k ∈ ks → controller_type_key k = Some s → is_Some (a !! s)) →
  foldl backfill a ks = a.
Proof.
  induction ks as [|k ks IH]; intros Hks; [done|]. simpl.
  assert (backfill a k = a) as ->.
  { unfold backfill. destruct (controller_type_key k) as [s|] eqn:Hk; [|done].
    rewrite bool_decide_true; [done|]. apply (Hks k); [by left|done]. }
  apply IH. intros k' s Hk'. apply Hks. by right.
Qed.

Lemma default_false_lookup k a j :
  default_false k a !! j =
  if decide (k = j) then
    Some (if String.eqb (default EmptyString (a !! k)) EmptyString
          then "false" else default EmptyString (a !! k))
  else a !! j.
Proof.
  unfold default_false. case_decide as Hj; [subst j|].
  - destruct (String.eqb_spec (default EmptyString (a !! k)) EmptyString)
      as [He|Hne].
    + by rewrite lookup_insert_eq.
    + by destruct (a !! k).
  - destruct (String.eqb _ _); [|done]. by rewrite lookup_insert_ne.
Qed.

Lemma controller_type_key_not_flag k :
  controller_type_key k ≠ Some "skip_customization" ∧
  controller_type_key k ≠ Some "enable_disk_uuid".
Proof.
  split; intros (i & _ & _ & Hi)%controller_type_key_inv; discriminate Hi.
Qed.

Lemma ctype_key_not_flag index :
  "skip_customization" ≠ ctype_key index ∧
  "enable_disk_uuid" ≠ ctype_key index.
Proof. split; discriminate. Qed.

Lemma size_key_not_flag index :
  "skip_customization" ≠ size_key index ∧
  "enable_disk_uuid" ≠ size_key index.
Proof. split; discriminate. Qed.

Lemma V1_flags_other a j :
  j ≠ "skip_customization" → j ≠ "enable_disk_uuid" →
  V1_flags a !! j = a !! j.
Proof.
  intros. unfold V1_flags.
  rewrite !default_false_lookup, !decide_False; done.
Qed.

Lemma V1_flags_present a j v : a !! j = Some v → is_Some (V1_flags a !! j).
Proof.
  intros Hj. unfold V1_flags. rewrite !default_false_lookup.
  repeat case_decide; by eauto.
Qed.

(** The two flags in the map the step leaves. *)
Lemma V1_attributes_flag a k :
  k = "skip_customization" ∨ k = "enable_disk_uuid" →
  V1_attributes a !! k =
  Some (if String.eqb (default EmptyString (a !! k)) EmptyString
        then "false" else default EmptyString (a !! k)).
Proof.
  intros Hk. unfold V1_attributes. apply foldl_backfill_present.
  unfold V1_flags. rewrite !default_false_lookup.
  destruct Hk as [-> | ->]; by repeat (case_decide; simplify_eq).
Qed.

(** The derived key of a three-component size key in the map. *)
Lemma V1_attributes_ctype a index :
  dotless index → is_Some (a !! size_key index) →
  V1_attributes a !! ctype_key index =
  Some (default "scsi" (a !! ctype_key index)).
Proof.
  intros Hi [v Hv]. unfold V1_attributes.
  pose proof (ctype_key_not_flag index) as [??].
  destruct (a !! ctype_key index) as [c|] eqn:Hc; simpl.
  - apply foldl_backfill_present. by rewrite V1_flags_other.
  - apply foldl_backfill_added with (size_key index).
    + by rewrite V1_flags_other.
    + apply keys_spec. by eapply V1_flags_present.
    + by apply controller_type_key_size.
Qed.

(** Every other key the step adds is one of the two flags. *)
Lemma V1_attributes_new a j :
  a !! j = None → is_Some (V1_attributes a !! j) →
  j = "skip_customization" ∨ j = "enable_disk_uuid" ∨
  ∃ index, dotless index ∧ is_Some (a !! size_key index) ∧
           j = ctype_key index.
Proof.
  intros Hj Hnew.
  destruct (decide (j = "skip_customization")) as [|H1]; [by left|].
  destruct (decide (j = "enable_disk_uuid")) as [|H2]; [by right; left|].
  right; right.
  destruct (decide (Exists (λ k, controller_type_key k = Some j)
                      (map_to_list (V1_flags a)).*1)) as [Hex|Hno].
  - apply Exists_exists in Hex as (k & Hk & Hkj).
    apply controller_type_key_inv in Hkj as (index & Hi & -> & ->).
    exists index. split; [done|]. split; [|done].
    apply keys_spec in Hk. pose proof (size_key_not_flag index) as [??].
    by rewrite V1_flags_other in Hk.
  - unfold V1_attributes in Hnew. rewrite foldl_backfill_absent in Hnew.
    + by destruct Hnew.
    + by rewrite V1_flags_other.
    + intros k Hk Hkj. apply Hno, Exists_exists. eauto.
Qed.

(** Keys already there keep their value. *)
Lemma V1_attributes_old a j v :
  a !! j = Some v → j ≠ "skip_customization" → j ≠ "enable_disk_uuid" →
  V1_attributes a !! j = Some v.
Proof.
  intros Hj ??. apply foldl_backfill_present. by rewrite V1_flags_other.
Qed.

Lemma V1_attributes_idem a : V1_attributes (V1_attributes a) = V1_attributes a.
Proof.
  set (b := V1_attributes a).
  assert (V1_flags b = b) as Hflags.
  { unfold V1_flags, default_false.
    assert (∀ k, k = "skip_customization" ∨ k = "enable_disk_uuid" →
                 String.eqb (default EmptyString (b !! k)) EmptyString = false)
      as Hne.
    { intros k Hk. unfold b. rewrite (V1_attributes_flag a k Hk). simpl.
      destruct (String.eqb_spec (default EmptyString (a !! k)) EmptyString);
        [done|]. by apply String.eqb_neq. }
    rewrite (Hne "skip_customization") by auto.
    by rewrite (Hne "enable_disk_uuid") by auto. }
  unfold V1_attributes at 1. fold b. rewrite Hflags.
  apply foldl_backfill_id. intros k s Hk Hks.
  apply keys_spec in Hk.
  pose proof Hks as (index & Hi & -> & ->)%controller_type_key_inv.
  pose proof (size_key_not_flag index) as [??].
  destruct (a !! size_key index) as [v|] eqn:Hv.
  - unfold b. rewrite V1_attributes_ctype by eauto. by eexists.
  - destruct (V1_attributes_new a _ Hv Hk) as [?|[?|(i & _ & _ & Hk')]];
      [done|done|].
    pose proof (controller_type_key_ctype i) as Hc.
    rewrite <- Hk' in Hc. congruence.
Qed.

End V1_attribute_facts.

Section V1_claims.
Import string_facts.
Variable Empty : InstanceState → bool.

(** The loop body does nothing on a key the loop has added, so it does
    not matter whether Go's [range] visits the added keys. *)
Lemma backfill_added_key k s w :
  controller_type_key k = Some s →
  backfill_controller_type s w = (w, Ok tt).
Proof.
  intros (index & _ & _ & ->)%controller_type_key_inv.
  unfold backfill_controller_type.
  by rewrite controller_type_key_ctype.
Qed.

(** Nor does the order in which [range] visits the keys. *)
Lemma foldl_backfill_perm (a : gmap string string) ks ks' :
  ks ≡ₚ ks' → foldl backfill a ks = foldl backfill a ks'.
Proof.
  intros Hp. apply map_eq. intros j.
  destruct (a !! j) as [v|] eqn:Hj.
  - by rewrite !(foldl_backfill_present _ _ _ v).
  - destruct (decide (Exists (λ k, controller_type_key k = Some j) ks))
      as [Hex|Hno].
    + apply Exists_exists in Hex as (k & Hk & Hkj).
      rewrite (foldl_backfill_added ks a j k Hj Hk Hkj).
      assert (k ∈ ks') as Hk' by by rewrite <- Hp.
      by rewrite (foldl_backfill_added ks' a j k Hj Hk' Hkj).
    + rewrite (foldl_backfill_absent ks a j Hj).
      * rewrite (foldl_backfill_absent ks' a j Hj); [done|].
        intros k Hk Hkj. apply Hno, Exists_exists. exists k.
        by rewrite Hp.
      * intros k Hk Hkj. apply Hno, Exists_exists. eauto.
Qed.


(** Claim C7, amended: on a record that is not empty and has an attribute
    map, step V1 sets each of [skip_customization] and [enable_disk_uuid]
    to ["false"] when the attribute is absent or is the empty string, and
    leaves it untouched when it has any other value. *)
Theorem C7_flags_default_false
    (w : World) (a : gmap string string) (flag : string) :
  Empty (cell w) = false →
  Attributes (cell w) = Some a →
  flag = "skip_customization" ∨ flag = "enable_disk_uuid" →
  ∃ a',
    Attributes (cell (migrateVSphereVirtualMachineStateV1 Empty w).1)
      = Some a' ∧
    (a !! flag = None ∨ a !! flag = Some EmptyString →
     a' !! flag = Some "false") ∧
    (∀ v, a !! flag = Some v → v ≠ EmptyString → a' !! flag = Some v).
Proof.
  intros HE Ha Hflag. exists (V1_attributes a).
  rewrite (V1_run Empty w a HE Ha). split; [done|].
  rewrite (V1_attributes_flag a flag Hflag). split.
  - by intros [-> | ->].
  - intros v -> Hv. simpl. by apply String.eqb_neq in Hv as ->.
Qed.

(** Claim C8: step V1 is idempotent; run on the record it has left, it
    leaves the same record, attribute map included.  Neither run fails. *)
Theorem C8_V1_idempotent (w : World) :
  let once := migrateVSphereVirtualMachineStateV1 Empty w in
  let twice := migrateVSphereVirtualMachineStateV1 Empty once.1 in
  cell twice.1 = cell once.1 ∧ once.2 = Ok tt ∧ twice.2 = Ok tt.
Proof.
  assert (∀ w', Empty (cell w') = true ∨ Attributes (cell w') = None →
            let again := migrateVSphereVirtualMachineStateV1 Empty w' in
            cell again.1 = cell w' ∧ again.2 = Ok tt) as Hnoop.
  { intros w' H. by rewrite (V1_noop Empty w' H). }
  destruct (Attributes (cell w)) as [a|] eqn:Ha.
  2: { simpl. rewrite (V1_noop Empty w) by auto. simpl.
       rewrite (V1_noop Empty) by auto. done. }
  destruct (Empty (cell w)) eqn:HE.
  { simpl. rewrite (V1_noop Empty w) by auto. simpl.
    rewrite (V1_noop Empty) by auto. done. }
  simpl. rewrite (V1_run Empty w a HE Ha). simpl.
  match goal with |- context [migrateVSphereVirtualMachineStateV1 _ ?w1] =>
    set (w1' := w1) end.
  destruct (Empty (cell w1')) eqn:HE1.
  { rewrite (V1_noop Empty w1') by auto. done. }
  rewrite (V1_run Empty w1' (V1_attributes a) HE1 eq_refl). simpl.
  by rewrite V1_attributes_idem.
Qed.


End V1_claims.

(** ** The dispatcher *)

Section Dispatcher_facts.
Variable Empty : InstanceState → bool.
Variable VirtualMachine : Type.
Variable FromUUID : string → Res VirtualMachine.
Variable Properties : VirtualMachine → Res (list VirtualDevice).
Variable DiskImportOperation :
  ResourceData → list VirtualDevice → ResourceData * Res unit.
Variable schemaDefault : string → string.

Local Abbreviation Migrate :=
  (resourceVSphereVirtualMachineMigrateState Empty VirtualMachine FromUUID
     Properties DiskImportOperation schemaDefault).
Local Abbreviation registered :=
  (migrateFunc Empty VirtualMachine FromUUID Properties DiskImportOperation
     schemaDefault).

Lemma Migrate_nil version w : Migrate version Nil w = (w, Ok Nil).
Proof. by simp resourceVSphereVirtualMachineMigrateState. Qed.

Lemma Migrate_empty version w :
  Empty (cell w) = true → Migrate version Ref w = (w, Ok Ref).
Proof.
  intros HE. simp resourceVSphereVirtualMachineMigrateState.
  rewrite HE. by simp resourceVSphereVirtualMachineMigrateState.
Qed.

(** One turn of the dispatcher on a record that is not empty. *)
Lemma Migrate_unfold version w :
  Empty (cell w) = false →
  Migrate version Ref w =
  match registered version with
  | None =>
      ({| cell := cell w;
          trace := trace w ++ [LogCompleted version (cell w)] |}, Ok Ref)
  | Some f =>
      match f {| cell := cell w;
                 trace := trace w ++ [LogOldState version (cell w)] |} with
      | (w', Error err) => (w', Error err)
      | (w', Ok _) =>
          Migrate (version + 1) Ref
            {| cell := cell w';
               trace := trace w' ++ [LogNewState (version + 1) (cell w')] |}
      end
  end.
Proof.
  intros HE. simp resourceVSphereVirtualMachineMigrateState.
  rewrite HE. simp resourceVSphereVirtualMachineMigrateState.
  unfold inspect. generalize (@eq_refl _ (registered version)).
  generalize (registered version) at 2 4 5.
  intros [f|] Hf; simp resourceVSphereVirtualMachineMigrateState; [|done].
  simpl. destruct (f _) as [w' [[]|err]];
    by simp resourceVSphereVirtualMachineMigrateState.
Qed.

End Dispatcher_facts.

Section Dispatcher_claims.
Variable VirtualMachine : Type.
Variable FromUUID : string → Res VirtualMachine.
Variable Properties : VirtualMachine → Res (list VirtualDevice).
Variable DiskImportOperation :
  ResourceData → list VirtualDevice → ResourceData * Res unit.
Variable schemaDefault : string → string.

(** Claim C1, amended: for a record whose id is the empty string, and
    for every version, the dispatcher returns the pointer it was given
    with no error, and leaves the world as it was: the record is
    unchanged and nothing is logged or called, so no step has run. *)
Theorem C1_empty_record_unchanged (version : Z) (w : World) :
  ID (cell w) = EmptyString →
  resourceVSphereVirtualMachineMigrateState InstanceState_Empty
    VirtualMachine FromUUID Properties DiskImportOperation schemaDefault
    version Ref w = (w, Ok Ref).
Proof.
  intros Hid. apply Migrate_empty. unfold InstanceState_Empty.
  by rewrite Hid.
Qed.

(** Claim C9: at a version other than 0 and 1 the dispatcher is a fixed
    point on every record that is not empty: it returns the pointer it
    was given with no error, the record is unchanged, and all it does is
    log that the migration is complete; no step runs. *)
Theorem C9_unregistered_version_fixed_point
    (Empty : InstanceState → bool) (version : Z) (w : World) :
  version ≠ 0 → version ≠ 1 →
  Empty (cell w) = false →
  resourceVSphereVirtualMachineMigrateState Empty
    VirtualMachine FromUUID Properties DiskImportOperation schemaDefault
    version Ref w =
  ({| cell := cell w; trace := trace w ++ [LogCompleted version (cell w)] |},
   Ok Ref).
Proof.
  intros H0 H1 HE. rewrite Migrate_unfold by done.
  unfold migrateFunc.
  destruct (Z.eqb_spec version 1); [done|].
  by destruct (Z.eqb_spec version 0).
Qed.

End Dispatcher_claims.

(** ** The two readings of a key that matches *)

Section Matchers.
Import string_facts.

Lemma strip_prefix_Some prefix s r :
  regexp.strip_prefix prefix s = Some r ↔ s = prefix +:+ r.
Proof.
  revert s. induction prefix as [|a p IH]; intros s; simpl.
  - rewrite ?app_nil_l. split; [by intros [= ->]|by intros ->].
  - rewrite ?app_cons. destruct s as [|b s]; [done|].
    destruct (Ascii.eqb_spec a b) as [->|Hne].
    + rewrite IH. split; [by intros ->|by intros [= ->]].
    + split; [done|]. by intros [= ? ?].
Qed.

Lemma skip_digits_split s :
  ∃ ds, all_digits ds = true ∧ s = ds +:+ regexp.skip_digits s.
Proof.
  induction s as [|c s (ds & Hds & Hs)]; [by exists EmptyString|].
  simpl. destruct (regexp.is_digit c) eqn:Hc.
  - exists (String c ds). simpl. rewrite Hc, Hds. split; [done|].
    by rewrite app_cons, <- Hs.
  - by exists EmptyString.
Qed.

Lemma skip_digits_app ds t :
  all_digits ds = true →
  regexp.skip_digits (ds +:+ t) = regexp.skip_digits t.
Proof.
  induction ds as [|c ds IH]; [done|]. cbn [all_digits].
  intros [Hc Hds]%andb_prop. rewrite app_cons. cbn [regexp.skip_digits].
  rewrite Hc. by apply IH.
Qed.

(** [disk_key_here] finds an occurrence that starts the string. *)
Lemma disk_key_here_spec s :
  regexp.disk_key_here s = true ↔
  ∃ index post, index ≠ EmptyString ∧ all_digits index = true ∧
                s = "disk." +:+ index +:+ ".key" +:+ post.
Proof.
  unfold regexp.disk_key_here. split.
  - destruct (regexp.strip_prefix "disk." s) as [[|c r]|] eqn:Hs; try done.
    apply strip_prefix_Some in Hs as ->.
    intros [Hc [post Hpost]%HasPrefix_app]%andb_prop.
    destruct (skip_digits_split r) as (ds & Hds & Hr).
    exists (String c ds), post. split; [done|]. split.
    { simpl. by rewrite Hc, Hds. }
    rewrite Hr, Hpost. by rewrite !app_cons.
  - intros (index & post & Hne & Hdigits & ->).
    destruct index as [|c ds]; [done|]. simpl in Hdigits.
    apply andb_prop in Hdigits as [Hc Hds].
    assert (regexp.strip_prefix "disk."
              ("disk." +:+ String c ds +:+ ".key" +:+ post)
            = Some (String c (ds +:+ ".key" +:+ post))) as ->.
    { apply strip_prefix_Some. by rewrite !app_cons. }
    rewrite Hc, skip_digits_app by done. reflexivity.
Qed.

(** The matcher of line 94 accepts the keys that have [disk.<index>.key]
    in them, at any place. *)
Lemma disk_key_MatchString_occurrence k :
  regexp.disk_key_MatchString k = true ↔ disk_key_occurrence k.
Proof.
  unfold disk_key_occurrence. induction k as [|c k IH].
  - simpl. split; [done|].
    intros (pre & index & post & _ & _ & Hk).
    destruct pre; [|by rewrite app_cons in Hk].
    by rewrite app_nil_l in Hk.
  - cbn [regexp.disk_key_MatchString].
    destruct (regexp.disk_key_here (String c k)) eqn:Hhere.
    + split; [|done]. intros _.
      apply disk_key_here_spec in Hhere as (index & post & ? & ? & ->).
      by exists EmptyString, index, post.
    + rewrite IH. split.
      * intros (pre & index & post & ? & ? & ->).
        exists (String c pre), index, post. by rewrite app_cons.
      * intros (pre & index & post & Hne & Hd & Hk).
        destruct pre as [|c' pre].
        -- rewrite app_nil_l in Hk.
           assert (regexp.disk_key_here (String c k) = true) as Ht;
             [|by rewrite Ht in Hhere].
           apply disk_key_here_spec. by exists index, post.
        -- rewrite app_cons in Hk. injection Hk as -> ->.
           by exists pre, index, post.
Qed.

Lemma whole_index_key_spec r :
  whole_index_key r = true ↔
  ∃ ds, all_digits ds = true ∧ r = ds +:+ ".key".
Proof.
  induction r as [|c r IH]; cbn [whole_index_key].
  - split; [done|]. intros (ds & _ & Hr).
    destruct ds; [by rewrite app_nil_l in Hr|by rewrite app_cons in Hr].
  - destruct (regexp.is_digit c) eqn:Hc.
    + rewrite IH. split.
      * intros (ds & Hds & ->). exists (String c ds). cbn [all_digits].
        by rewrite Hc, Hds, app_cons.
      * intros (ds & Hds & Hr). destruct ds as [|c' ds].
        -- rewrite app_nil_l in Hr. injection Hr as -> ->.
           by vm_compute in Hc.
        -- rewrite app_cons in Hr. injection Hr as -> ->.
           cbn [all_digits] in Hds. apply andb_prop in Hds as [_ Hds].
           by exists ds.
    + rewrite String.eqb_eq. split.
      * intros ->. by exists EmptyString.
      * intros (ds & Hds & Hr). destruct ds as [|c' ds].
        -- by rewrite app_nil_l in Hr.
        -- rewrite app_cons in Hr. injection Hr as -> ->.
           cbn [all_digits] in Hds. apply andb_prop in Hds as [Hc' _].
           congruence.
Qed.

(** [whole_disk_key] decides the shape [disk.<index>.key]. *)
Lemma whole_disk_key_shape k :
  whole_disk_key k = true ↔ disk_key_shape k.
Proof.
  unfold whole_disk_key, disk_key_shape. split.
  - destruct (regexp.strip_prefix "disk." k) as [[|c r]|] eqn:Hs; try done.
    apply strip_prefix_Some in Hs as ->.
    intros [Hc (ds & Hds & ->)%whole_index_key_spec]%andb_prop.
    exists (String c ds). split; [done|]. split.
    { simpl. by rewrite Hc, Hds. }
    by rewrite !app_cons.
  - intros (index & Hne & Hdigits & ->).
    destruct index as [|c ds]; [done|]. simpl in Hdigits.
    apply andb_prop in Hdigits as [Hc Hds].
    assert (regexp.strip_prefix "disk." ("disk." +:+ String c ds +:+ ".key")
            = Some (String c (ds +:+ ".key"))) as ->.
    { apply strip_prefix_Some. by rewrite !app_cons. }
    rewrite Hc. simpl. apply whole_index_key_spec. by exists ds.
Qed.

(** A key of the shape has an occurrence; not the other way round, as
    [xdisk.7.keyname] shows. *)
Lemma disk_key_shape_occurrence k :
  disk_key_shape k → disk_key_occurrence k.
Proof.
  intros (index & Hne & Hd & ->).
  exists EmptyString, index, EmptyString. split; [done|]. split; [done|].
  rewrite app_nil_l. by do 2 f_equal.
Qed.

End Matchers.

(** ** Step V2 *)

Ltac run_M :=
  unfold mbind, M_bind, bind, get, put, emit, fail, mret, M_ret, ret,
    set_attr; simpl.

Section V2_facts.
Variable Empty : InstanceState → bool.
Variable VirtualMachine : Type.
Variable FromUUID : string → Res VirtualMachine.
Variable Properties : VirtualMachine → Res (list VirtualDevice).
Variable DiskImportOperation :
  ResourceData → list VirtualDevice → ResourceData * Res unit.
Variable schemaDefault : string → string.

Local Abbreviation V2 :=
  (migrateVSphereVirtualMachineStateV2 VirtualMachine FromUUID Properties
     DiskImportOperation schemaDefault).
Local Abbreviation Migrate :=
  (resourceVSphereVirtualMachineMigrateState Empty VirtualMachine FromUUID
     Properties DiskImportOperation schemaDefault).

Lemma attr_absent_or_empty m k :
  absent_or_empty m k ↔ attr m k = EmptyString.
Proof.
  destruct m as [a|]; simpl; [|done].
  destruct (a !! k) as [v|]; simpl; split; try done.
  - by intros [|[= ->]].
  - intros ->. by right.
  - by left.
Qed.

(** Without UUID the step fails at once. *)
Lemma V2_no_uuid w :
  attr (Attributes (cell w)) "uuid" = EmptyString →
  V2 w =
  (w, Error ("resource ID " +:+ ID (cell w) +:+
             " has no UUID. State cannot be migrated")).
Proof.
  intros Hid. unfold migrateVSphereVirtualMachineStateV2. run_M.
  by rewrite Hid.
Qed.

(** Every successful run: the three collaborators succeeded, and the
    record is rebuilt from the UUID, [maxBus] and the schema defaults. *)
Lemma V2_success_inv w w' :
  V2 w = (w', Ok tt) →
  let st := cell w in
  let id := attr (Attributes st) "uuid" in
  ∃ vm props d',
    let maxBus := derive_maxBus (Attributes st) props in
    id ≠ EmptyString ∧
    FromUUID id = Ok vm ∧
    Properties vm = Ok props ∧
    DiskImportOperation (scratch maxBus) props = (d', Ok tt) ∧
    w' = {| cell :=
              {| ID := id;
                 Attributes :=
                   Some (V2_attributes schemaDefault maxBus
                           (guestNetTimeout schemaDefault (Attributes st))) |};
            trace :=
              trace w ++
              [LogMigrateUUID (ID st) id; CallFromUUID id; CallProperties;
               CallDiskImportOperation (scratch maxBus) props;
               LogMigrationComplete] |}.
Proof.
  unfold migrateVSphereVirtualMachineStateV2, call_FromUUID,
    call_Properties, call_DiskImportOperation. run_M.
  destruct (String.eqb_spec (attr (Attributes (cell w)) "uuid") EmptyString)
    as [|Hid]; [done|].
  destruct (FromUUID _) as [vm|] eqn:Hvm; [|done].
  destruct (Properties vm) as [props|] eqn:Hprops; simpl; [|done].
  fold (scratch (derive_maxBus (Attributes (cell w)) props)).
  destruct (DiskImportOperation _ props) as [d' [[]|]] eqn:Hd; simpl;
    [|done].
  intros [= <-]. exists vm, props, d'. repeat split; try done.
  f_equal. by rewrite <- !List.app_assoc.
Qed.

(** Every failing run: which of the four checks failed, with the record
    as it was. *)
Lemma V2_error_inv w w' msg :
  V2 w = (w', Error msg) →
  let st := cell w in
  let id := attr (Attributes st) "uuid" in
  cell w' = st ∧
  ((id = EmptyString ∧ w' = w ∧
    msg = "resource ID " +:+ ID st +:+
          " has no UUID. State cannot be migrated") ∨
   (∃ err, id ≠ EmptyString ∧ FromUUID id = Error err ∧
      msg = "error fetching virtual machine: " +:+ err) ∨
   (∃ vm err, id ≠ EmptyString ∧ FromUUID id = Ok vm ∧
      Properties vm = Error err ∧
      msg = "error fetching virtual machine properties: " +:+ err) ∨
   (∃ vm props d', id ≠ EmptyString ∧ FromUUID id = Ok vm ∧
      Properties vm = Ok props ∧
      DiskImportOperation
        (scratch (derive_maxBus (Attributes st) props)) props
        = (d', Error msg))).
Proof.
  unfold migrateVSphereVirtualMachineStateV2, call_FromUUID,
    call_Properties, call_DiskImportOperation. run_M.
  destruct (String.eqb_spec (attr (Attributes (cell w)) "uuid") EmptyString)
    as [Hid|Hid].
  { intros [= <- <-]. split; [done|]. by left. }
  destruct (FromUUID _) as [vm|err] eqn:Hvm.
  2: { intros [= <- <-]. split; [done|]. right; left. by exists err. }
  destruct (Properties vm) as [props|err] eqn:Hprops; simpl.
  2: { intros [= <- <-]. split; [done|]. right; right; left.
       by exists vm, err. }
  fold (scratch (derive_maxBus (Attributes (cell w)) props)).
  destruct (DiskImportOperation _ props) as [d' [[]|err]] eqn:Hd; simpl;
    [done|].
  intros [= <- <-]. split; [done|]. right; right; right.
  by exists vm, props, d'.
Qed.

End V2_facts.

Section V2_claims.
Variable Empty : InstanceState → bool.
Variable VirtualMachine : Type.
Variable FromUUID : string → Res VirtualMachine.
Variable Properties : VirtualMachine → Res (list VirtualDevice).
Variable DiskImportOperation :
  ResourceData → list VirtualDevice → ResourceData * Res unit.
Variable schemaDefault : string → string.

Local Abbreviation V2 :=
  (migrateVSphereVirtualMachineStateV2 VirtualMachine FromUUID Properties
     DiskImportOperation schemaDefault).
Local Abbreviation Migrate :=
  (resourceVSphereVirtualMachineMigrateState Empty VirtualMachine FromUUID
     Properties DiskImportOperation schemaDefault).

Lemma V2_attributes_dom maxBus g :
  dom (V2_attributes schemaDefault maxBus g) = list_to_set V2_fields.
Proof.
  unfold V2_attributes, V2_fields.
  rewrite !dom_insert_L, dom_empty_L. simpl. set_solver.
Qed.

Lemma V2_attributes_timeout maxBus g :
  V2_attributes schemaDefault maxBus g !! "wait_for_guest_net_timeout"
  = Some g.
Proof. unfold V2_attributes. by simplify_map_eq. Qed.

Lemma V2_attributes_count maxBus g :
  V2_attributes schemaDefault maxBus g !! "scsi_controller_count"
  = Some (Sprintf_int (int64 (maxBus + 1))).
Proof. unfold V2_attributes. by simplify_map_eq. Qed.

(** Claim C4: on a record whose [uuid] attribute is absent or empty, step
    V2 returns the error naming the record's id and leaves the world as
    it was: no call, no log line, the same id and attributes.  The
    dispatcher at version 1 then returns that error after its first log
    line: no increment of the version, no further step. *)
Theorem C4_missing_uuid_fails (w : World) :
  absent_or_empty (Attributes (cell w)) "uuid" →
  let msg := "resource ID " +:+ ID (cell w) +:+
             " has no UUID. State cannot be migrated" in
  V2 w = (w, Error msg) ∧
  (Empty (cell w) = false →
   Migrate 1 Ref w =
   ({| cell := cell w; trace := trace w ++ [LogOldState 1 (cell w)] |},
    Error msg)).
Proof.
  intros Hid%attr_absent_or_empty msg. split.
  - by apply V2_no_uuid.
  - intros HE. rewrite Migrate_unfold by done. simpl.
    by rewrite V2_no_uuid.
Qed.

(** Claim C5: step V2 is atomic on failure.  Whenever it returns an
    error the record is as it was on entry, and the error is one of
    four: no UUID, the lookup by UUID failed, the fetch of the
    properties failed, the disk import failed. *)
Theorem C5_V2_atomic_on_failure (w w' : World) (msg : string) :
  V2 w = (w', Error msg) →
  let st := cell w in
  let id := attr (Attributes st) "uuid" in
  cell w' = st ∧
  ((id = EmptyString ∧ w' = w ∧
    msg = "resource ID " +:+ ID st +:+
          " has no UUID. State cannot be migrated") ∨
   (∃ err, id ≠ EmptyString ∧ FromUUID id = Error err ∧
      msg = "error fetching virtual machine: " +:+ err) ∨
   (∃ vm err, id ≠ EmptyString ∧ FromUUID id = Ok vm ∧
      Properties vm = Error err ∧
      msg = "error fetching virtual machine properties: " +:+ err) ∨
   (∃ vm props d', id ≠ EmptyString ∧ FromUUID id = Ok vm ∧
      Properties vm = Ok props ∧
      DiskImportOperation
        (scratch (derive_maxBus (Attributes st) props)) props
        = (d', Error msg))).
Proof. apply V2_error_inv. Qed.

(** Claim C10: after a successful step V2 the attribute
    [wait_for_guest_net_timeout] is ["-1"] when the legacy attribute
    [wait_for_guest_net] is the string ["false"], and the schema default
    of [wait_for_guest_net_timeout] for every other value, absent
    included; so, the default not being the sentinel itself, it is
    ["-1"] exactly when the legacy attribute is ["false"]. *)
Theorem C10_guest_net_timeout (w w' : World) :
  V2 w = (w', Ok tt) →
  let legacy := attr (Attributes (cell w)) "wait_for_guest_net" in
  let dflt := schemaDefault "wait_for_guest_net_timeout" in
  ∃ a', Attributes (cell w') = Some a' ∧
    (legacy = "false" → a' !! "wait_for_guest_net_timeout" = Some "-1") ∧
    (legacy ≠ "false" → a' !! "wait_for_guest_net_timeout" = Some dflt) ∧
    (dflt ≠ "-1" →
     (a' !! "wait_for_guest_net_timeout" = Some "-1" ↔ legacy = "false")).
Proof.
  intros Hrun legacy dflt.
  apply V2_success_inv in Hrun as (vm & props & d' & _ & _ & _ & _ & ->).
  simpl. eexists. split; [done|].
  rewrite V2_attributes_timeout. unfold guestNetTimeout.
  fold legacy. fold dflt.
  destruct (String.eqb_spec legacy "false") as [Hl|Hl].
  - by repeat split.
  - repeat split; try done. by intros [= ?].
Qed.

(** Claim C3, amended: after a successful step V2 the attribute map of
    the record holds the six fields the step sets and nothing else.
    What the disk import writes goes to the scratch [ResourceData] and
    is not copied to the record. *)
Theorem C3_final_attributes_are_the_six_fields (w w' : World) :
  V2 w = (w', Ok tt) →
  ∃ props d' a',
    DiskImportOperation
      (scratch (derive_maxBus (Attributes (cell w)) props)) props
      = (d', Ok tt) ∧
    Attributes (cell w') = Some a' ∧
    (∀ k, is_Some (a' !! k) ↔ k ∈ V2_fields) ∧
    (∀ k v, d' !! k = Some v → k ∉ V2_fields → a' !! k = None).
Proof.
  intros Hrun.
  apply V2_success_inv in Hrun as (vm & props & d' & _ & _ & _ & Hd & ->).
  simpl. exists props, d'. eexists. split; [done|]. split; [done|].
  assert (∀ k, is_Some (V2_attributes schemaDefault
                          (derive_maxBus (Attributes (cell w)) props)
                          (guestNetTimeout schemaDefault
                             (Attributes (cell w))) !! k)
               ↔ k ∈ V2_fields) as Hdom.
  { intros k. rewrite <- elem_of_dom, V2_attributes_dom.
    by rewrite elem_of_list_to_set. }
  split; [done|]. intros k v _ Hk.
  apply eq_None_not_Some. by rewrite Hdom.
Qed.

End V2_claims.

(** ** The derived bus count *)

Section Bus_count.

Lemma int32_small x : in_int32 x → int32 x = x.
Proof.
  unfold in_int32, int32. intros H. rewrite Z.mod_small; lia.
Qed.

Lemma int64_small x : in_int32 x → int64 (x + 1) = x + 1.
Proof.
  unfold in_int32, int64. intros H. rewrite Z.mod_small; lia.
Qed.

Lemma digit_range c d : strconv.digit c = Some d → 0 ≤ d ≤ 9.
Proof.
  unfold strconv.digit.
  destruct (Z.leb_spec 48 (Z.of_N (N_of_ascii c)));
    destruct (Z.leb_spec (Z.of_N (N_of_ascii c)) 57); simpl; try done.
  intros [= <-]. lia.
Qed.

Lemma digits_ge acc s n : 0 ≤ acc → strconv.digits acc s = Some n → acc ≤ n.
Proof.
  revert acc. induction s as [|c s IH]; intros acc Hacc; simpl.
  - intros [= <-]. lia.
  - destruct (strconv.digit c) as [d|] eqn:Hd; [|done].
    apply digit_range in Hd. intros Hn. apply IH in Hn; lia.
Qed.

(** A parse with no error is the number the digits denote. *)
Lemma ParseUint_loop_Number n s v :
  strconv.ParseUint_loop n s = strconv.Number v → strconv.digits n s = Some v.
Proof.
  revert n. induction s as [|c s IH]; intros n; simpl.
  - by intros [= <-].
  - destruct (strconv.digit c) as [d|]; [|done].
    destruct (strconv.maxUint64 ÷ 10 + 1 <=? n); [done|].
    destruct (strconv.maxUint64 <? 10 * n + d); [done|]. apply IH.
Qed.

(** A syntax error means some byte is not a digit. *)
Lemma ParseUint_loop_ErrSyntax n s :
  strconv.ParseUint_loop n s = strconv.ErrSyntax → strconv.digits n s = None.
Proof.
  revert n. induction s as [|c s IH]; intros n; simpl; [done|].
  destruct (strconv.digit c) as [d|]; [|done].
  destruct (strconv.maxUint64 ÷ 10 + 1 <=? n); [done|].
  destruct (strconv.maxUint64 <? 10 * n + d); [done|]. apply IH.
Qed.

Lemma ParseUint_loop_ErrRange n s v :
  strconv.ParseUint_loop n s = strconv.ErrRange v → v = strconv.maxUint64.
Proof.
  revert n. induction s as [|c s IH]; intros n; simpl; [done|].
  destruct (strconv.digit c) as [d|]; [|done].
  destruct (strconv.maxUint64 ÷ 10 + 1 <=? n); [by intros [= <-]|].
  destruct (strconv.maxUint64 <? 10 * n + d); [by intros [= <-]|]. apply IH.
Qed.

Lemma int_value_split s neg body :
  strconv.split_sign s = (neg, body) →
  int_value s =
  match body with
  | EmptyString => 0
  | _ => match strconv.digits 0 body with
         | None => 0
         | Some n => if neg then - n else n
         end
  end.
Proof.
  intros Hs. unfold int_value, decimal. rewrite Hs.
  destruct body; [done|]. by destruct (strconv.digits 0 _).
Qed.

(** What [Atoi] returns against the number the string denotes: the same
    (0 for a string that denotes none), or, on a range error, the upper
    bound of [int], or its lower bound for a string that denotes nothing
    positive. *)
Lemma Atoi_cases s :
  strconv.Atoi s = int_value s ∨
  strconv.Atoi s = strconv.maxInt64 ∨
  (strconv.Atoi s = strconv.minInt64 ∧ int_value s ≤ 0).
Proof.
  unfold strconv.Atoi.
  destruct (strconv.split_sign s) as [neg body] eqn:Hs.
  rewrite (int_value_split s neg body Hs).
  destruct ((0 <? String.length s)%nat && (String.length s <? 19)%nat).
  { left. destruct body; [done|]. by destruct (strconv.digits 0 _). }
  unfold strconv.ParseInt. destruct s as [|c0 s0]; [by left; destruct body|].
  rewrite Hs. unfold strconv.ParseUint.
  destruct body as [|c r]; [by left|].
  unfold strconv.maxInt64, strconv.minInt64.
  destruct (strconv.ParseUint_loop 0 (String c r)) as [un| |un] eqn:Hloop.
  - pose proof (ParseUint_loop_Number _ _ _ Hloop) as Hd. rewrite Hd.
    pose proof (digits_ge 0 _ _ (Z.le_refl 0) Hd).
    destruct neg; cbn [negb andb].
    + destruct (Z.ltb_spec (2 ^ 63) un); cbn [strconv.returned].
      * right; right. split; [reflexivity|lia].
      * left. reflexivity.
    + destruct (Z.leb_spec (2 ^ 63) un); cbn [strconv.returned].
      * right; left. reflexivity.
      * left. reflexivity.
  - apply ParseUint_loop_ErrSyntax in Hloop. rewrite Hloop. left. reflexivity.
  - apply ParseUint_loop_ErrRange in Hloop. subst un.
    destruct neg.
    + right; right. split; [reflexivity|].
      destruct (strconv.digits 0 (String c r)) as [n|] eqn:Hd; [|done].
      pose proof (digits_ge 0 _ _ (Z.le_refl 0) Hd). lia.
    + right; left. reflexivity.
Qed.

Lemma FindByKey_elem l key d : FindByKey l key = Some d → d ∈ l.
Proof.
  induction l as [|d' l IH]; simpl; [done|].
  destruct (Key d' =? key).
  - intros [= ->]. by left.
  - intros H. right. by apply IH.
Qed.

Lemma reached_bus_in_int32 matches l kv b :
  Forall device_wf l → reached_bus matches l kv = Some b → in_int32 b.
Proof.
  intros Hwf. unfold reached_bus.
  destruct (matches kv.1); [|done].
  destruct (0 <? int_value kv.2); [|done].
  destruct (FindByKey l (int_value kv.2)) as [device|]; simpl; [|done].
  destruct (FindByKey l (ControllerKey device)) as [ctlr|] eqn:Hc; simpl;
    [|done].
  apply FindByKey_elem in Hc.
  rewrite Forall_forall in Hwf. destruct (Hwf ctlr Hc) as (_ & _ & Hb).
  destruct (Kind ctlr); [|done]. by intros [= <-].
Qed.

(** One round of the loop of lines 93 to 112 takes the maximum with the
    bus number the entry reaches. *)
Lemma scan_bus_reached l maxBus kv :
  in_int32 maxBus →
  (regexp.disk_key_MatchString kv.1 = true → strconv.Atoi kv.2 < 2 ^ 31) →
  scan_bus l maxBus kv =
  match reached_bus regexp.disk_key_MatchString l kv with
  | Some b => Z.max maxBus b
  | None => maxBus
  end.
Proof.
  intros Hm Hkv. unfold scan_bus, reached_bus.
  destruct (regexp.disk_key_MatchString kv.1); simpl; [|done].
  specialize (Hkv eq_refl).
  destruct (Z.ltb_spec (strconv.Atoi kv.2) 1) as [Hlow|Hpos].
  - destruct (Z.ltb_spec 0 (int_value kv.2)) as [Hv|]; [|done].
    destruct (Atoi_cases kv.2) as [He|[He|[_ He]]];
      unfold strconv.maxInt64 in *; lia.
  - assert (strconv.Atoi kv.2 = int_value kv.2) as He.
    { destruct (Atoi_cases kv.2) as [He|[He|[He _]]];
        unfold strconv.maxInt64, strconv.minInt64 in *; lia. }
    rewrite <- He. destruct (Z.ltb_spec 0 (strconv.Atoi kv.2)); [|lia].
    rewrite int32_small by (unfold in_int32; lia).
    destruct (FindByKey l (strconv.Atoi kv.2)) as [device|]; simpl; [|done].
    destruct (FindByKey l (ControllerKey device)) as [ctlr|]; simpl;
      [|done].
    destruct (Kind ctlr) as [b|]; [|done].
    rewrite int32_small by done.
    destruct (Z.ltb_spec maxBus b); lia.
Qed.

Lemma foldr_max_shift m b bs :
  foldr Z.max (Z.max m b) bs = Z.max b (foldr Z.max m bs).
Proof. induction bs as [|b' bs IH]; simpl; lia. Qed.

Lemma scan_buses_reached l kvs maxBus :
  Forall device_wf l →
  in_int32 maxBus →
  (∀ kv, kv ∈ kvs → regexp.disk_key_MatchString kv.1 = true →
         strconv.Atoi kv.2 < 2 ^ 31) →
  foldl (scan_bus l) maxBus kvs =
    foldr Z.max maxBus
      (omap (reached_bus regexp.disk_key_MatchString l) kvs) ∧
  in_int32 (foldl (scan_bus l) maxBus kvs).
Proof.
  intros Hwf. revert maxBus.
  induction kvs as [|kv kvs IH]; intros maxBus Hm Hkvs; [done|].
  cbn [foldl].
  change (omap (reached_bus regexp.disk_key_MatchString l) (kv :: kvs))
    with (match reached_bus regexp.disk_key_MatchString l kv with
          | Some b => b :: omap (reached_bus regexp.disk_key_MatchString l) kvs
          | None => omap (reached_bus regexp.disk_key_MatchString l) kvs
          end).
  rewrite scan_bus_reached; [|done|by apply Hkvs; left].
  assert (∀ kv', kv' ∈ kvs → regexp.disk_key_MatchString kv'.1 = true →
                 strconv.Atoi kv'.2 < 2 ^ 31) as Hkvs'.
  { intros kv' Hin. apply Hkvs. by right. }
  destruct (reached_bus regexp.disk_key_MatchString l kv) as [b|] eqn:Hb;
    [|by apply IH].
  assert (in_int32 (Z.max maxBus b)) as Hm'.
  { pose proof (reached_bus_in_int32 _ l kv b Hwf Hb).
    unfold in_int32 in *. lia. }
  destruct (IH _ Hm' Hkvs') as [-> Hr]. split.
  - simpl. apply foldr_max_shift.
  - rewrite foldr_max_shift.
    rewrite foldr_max_shift in Hr. done.
Qed.

(** What lines 90 to 112 compute is the derived bus count of the spec,
    for keys that have [disk.<index>.key] in them, when the values fit 32
    bits. *)
Lemma derive_maxBus_DerivedBusCount a l :
  Forall device_wf l →
  attributes_in_int32 a →
  derive_maxBus a l = DerivedBusCount regexp.disk_key_MatchString a l ∧
  in_int32 (DerivedBusCount regexp.disk_key_MatchString a l).
Proof.
  intros Hwf [Hcnt Hkeys]. unfold derive_maxBus, DerivedBusCount.
  assert (∀ kv, kv ∈ entries a → regexp.disk_key_MatchString kv.1 = true →
                strconv.Atoi kv.2 < 2 ^ 31) as Hkeys'.
  { intros kv Hin Hm. apply Hkeys; [done|].
    by apply disk_key_MatchString_occurrence. }
  assert (strconv.Atoi (attr a "disk.#") = int_value (attr a "disk.#"))
    as He.
  { destruct (Atoi_cases (attr a "disk.#")) as [He|[He|[He _]]]; [done|..];
      rewrite He in Hcnt; vm_compute in Hcnt; destruct Hcnt as [H1 H2];
      by (try (by destruct H1); try discriminate H2). }
  rewrite <- He.
  destruct (scan_buses_reached l (entries a) _ Hwf Hcnt Hkeys') as [Heq Hr].
  by rewrite <- Heq.
Qed.

(** The derived bus count of the spec does not depend on how the
    matching keys are decided. *)
Lemma DerivedBusCount_ext (m1 m2 : string → bool) a l :
  (∀ k, m1 k = m2 k) → DerivedBusCount m1 a l = DerivedBusCount m2 a l.
Proof.
  intros Hm. unfold DerivedBusCount. f_equal.
  apply list_omap_ext. apply Forall_Forall2_diag, Forall_forall.
  intros kv _. unfold reached_bus. by rewrite Hm.
Qed.

Lemma decides_same (m1 m2 : string → bool) (P : string → Prop) :
  (∀ k, m1 k = true ↔ P k) → (∀ k, m2 k = true ↔ P k) → ∀ k, m1 k = m2 k.
Proof.
  intros H1 H2 k. specialize (H1 k). specialize (H2 k).
  destruct (m1 k), (m2 k); try done.
  - symmetry. apply H2, H1. done.
  - apply H1, H2. done.
Qed.

Lemma attributes_in_int32_checked a :
  attributes_in_int32_check a = true → attributes_in_int32 a.
Proof.
  unfold attributes_in_int32_check, attributes_in_int32, in_int32.
  intros [[Hlo Hhi]%andb_prop Hall]%andb_prop.
  apply Z.leb_le in Hlo. apply Z.ltb_lt in Hhi. split; [done|].
  intros kv Hkv Hmatch%disk_key_MatchString_occurrence.
  rewrite forallb_forall in Hall.
  apply list_elem_of_In, Hall in Hkv. rewrite Hmatch in Hkv.
  by apply Z.ltb_lt.
Qed.

End Bus_count.

Section Bus_count_claim.
Variable VirtualMachine : Type.
Variable FromUUID : string → Res VirtualMachine.
Variable Properties : VirtualMachine → Res (list VirtualDevice).
Variable DiskImportOperation :
  ResourceData → list VirtualDevice → ResourceData * Res unit.
Variable schemaDefault : string → string.

Local Abbreviation V2 :=
  (migrateVSphereVirtualMachineStateV2 VirtualMachine FromUUID Properties
     DiskImportOperation schemaDefault).

(** Claim C2, amended: when the values [strconv.Atoi] returns for
    [disk.#], divided by 15, and for the attributes whose key has
    [disk.<index>.key] in it fit 32 bits (as the keys and bus numbers of
    the devices of the snapshot do), the bus count step V2 derives is the
    maximum of (a) the integer value of [disk.#], 0 when unparsable or
    absent, divided by 15 with integer division, and (b) the bus numbers
    of the SCSI controllers reached from the attributes whose key has
    [disk.<index>.key] in it, however [occurs] decides that; and the final
    [scsi_controller_count] is that maximum plus 1. *)
Theorem C2_derived_bus_count
    (occurs : string → bool)
    (w w' : World) (vm : VirtualMachine) (props : list VirtualDevice) :
  (∀ k, occurs k = true ↔ disk_key_occurrence k) →
  V2 w = (w', Ok tt) →
  FromUUID (attr (Attributes (cell w)) "uuid") = Ok vm →
  Properties vm = Ok props →
  Forall device_wf props →
  attributes_in_int32 (Attributes (cell w)) →
  derive_maxBus (Attributes (cell w)) props
    = DerivedBusCount occurs (Attributes (cell w)) props ∧
  ∃ a', Attributes (cell w') = Some a' ∧
    a' !! "scsi_controller_count" =
    Some (Sprintf_int
            (DerivedBusCount occurs (Attributes (cell w)) props + 1)).
Proof.
  intros Hoccurs Hrun Hvm Hprops Hwf Hrange.
  apply V2_success_inv in Hrun
    as (vm' & props' & d' & _ & Hvm' & Hprops' & _ & ->).
  rewrite Hvm in Hvm'. injection Hvm' as <-.
  rewrite Hprops in Hprops'. injection Hprops' as <-.
  rewrite (DerivedBusCount_ext occurs regexp.disk_key_MatchString)
    by (apply (decides_same _ _ disk_key_occurrence);
        [done|apply disk_key_MatchString_occurrence]).
  destruct (derive_maxBus_DerivedBusCount _ props Hwf Hrange) as [Heq Hr].
  split; [done|]. simpl. eexists. split; [done|].
  by rewrite V2_attributes_count, Heq, int64_small.
Qed.

End Bus_count_claim.

(** ** The claims on concrete records *)

(** The scenarios of the spec.  [demo] supplies collaborators that succeed
    unless the UUID is ["gone"], a snapshot with one disk on one SCSI
    controller, and example schema defaults. *)

Example Atoi_range_error_before_syntax :
  strconv.Atoi "99999999999999999999x" = strconv.maxInt64 ∧
  strconv.Atoi "-99999999999999999999x" = strconv.minInt64 ∧
  strconv.Atoi "9223372036854775807" = strconv.maxInt64 ∧
  strconv.Atoi "-9223372036854775808" = strconv.minInt64 ∧
  strconv.Atoi "123456789012345678x" = 0 ∧
  strconv.Atoi "+" = 0.
Proof. vm_compute. repeat (apply conj); reflexivity. Qed.

Example bus_count_disk_count_20 :
  attr (Attributes (cell (demo.V2 1
    (demo.record "vm-1" [("uuid", "u-1"); ("disk.#", "20")])).1))
    "scsi_controller_count" = "2".
Proof. vm_compute. reflexivity. Qed.

Example bus_count_controller_at_bus_3 :
  attr (Attributes (cell (demo.V2 3
    (demo.record "vm-1"
       [("uuid", "u-1"); ("disk.#", "5"); ("disk.1.key", "2000")])).1))
    "scsi_controller_count" = "4".
Proof. vm_compute. reflexivity. Qed.

Example end_to_end_from_version_0 :
  let out := demo.Migrate 0 0 Ref
    (demo.record "vm-old"
       [("disk.0.size", "10"); ("uuid", "ABC-123"); ("disk.#", "1")]) in
  out.2 = Ok Ref ∧
  ID (cell out.1) = "ABC-123" ∧
  attr (Attributes (cell out.1)) "imported" = "true" ∧
  attr (Attributes (cell out.1)) "scsi_controller_count" = "1".
Proof. vm_compute. repeat (apply conj); reflexivity. Qed.

Example V1_on_disk_0 :
  let out := migrateVSphereVirtualMachineStateV1 InstanceState_Empty
    (demo.record "vm-old" [("disk.0.size", "10")]) in
  Attributes (cell out.1) =
  Some (list_to_map
          [("disk.0.size", "10"); ("skip_customization", "false");
           ("enable_disk_uuid", "false");
           ("disk.0.controller_type", "scsi")]).
Proof. apply (bool_decide_unpack _). vm_compute. exact I. Qed.

Lemma C1_witness :
  let w := {| cell := {| ID := EmptyString;
                         Attributes := Some (list_to_map [("name", "vm")]) |};
              trace := [] |} in
  demo.Migrate 0 1 Ref w = (w, Ok Ref).
Proof.
  intros w.
  apply (C1_empty_record_unchanged unit demo.FromUUID (demo.Properties 0)
           demo.DiskImportOperation demo.schemaDefault 1 w).
  reflexivity.
Defined.

(** Claim C1 as it is stated fails: a record with an id and an empty
    attribute map is not empty for the dispatcher.  At version 1 step V2
    runs on it and fails for want of a UUID; at version 0 step V1 first
    writes the two flags into it. *)
Lemma C1_counterexample :
  let w := demo.record "vm-1" [] in
  Attributes (cell w) = Some ∅ ∧
  (let out := demo.Migrate 0 1 Ref w in
   out.2 = Error "resource ID vm-1 has no UUID. State cannot be migrated" ∧
   trace out.1 = [LogOldState 1 (cell w)]) ∧
  (let out := demo.Migrate 0 0 Ref w in
   out.2 = Error "resource ID vm-1 has no UUID. State cannot be migrated" ∧
   has_attr (Attributes (cell w)) "skip_customization" = false ∧
   attr (Attributes (cell out.1)) "skip_customization" = "false" ∧
   attr (Attributes (cell out.1)) "enable_disk_uuid" = "false").
Proof.
  split; [reflexivity|]. vm_compute. repeat (apply conj); reflexivity.
Qed.

Lemma C2_witness :
  let w := demo.record "vm-1"
             [("uuid", "u-1"); ("disk.#", "20"); ("disk.0.key", "2000")] in
  let w' := (demo.V2 3 w).1 in
  derive_maxBus (Attributes (cell w)) (demo.devices 3) = 3 ∧
  ∃ a', Attributes (cell w') = Some a' ∧
        a' !! "scsi_controller_count" = Some "4".
Proof.
  intros w w'.
  assert (migrateVSphereVirtualMachineStateV2 unit demo.FromUUID
            (demo.Properties 3) demo.DiskImportOperation demo.schemaDefault w
          = (w', Ok tt)) as Hrun by (vm_compute; reflexivity).
  assert (demo.FromUUID (attr (Attributes (cell w)) "uuid") = Ok tt) as Hvm
    by (vm_compute; reflexivity).
  assert (Forall device_wf (demo.devices 3)) as Hwf.
  { repeat constructor; simpl; unfold in_int32; lia. }
  assert (attributes_in_int32 (Attributes (cell w))) as Hrange.
  { apply attributes_in_int32_checked. vm_compute. reflexivity. }
  destruct (C2_derived_bus_count unit demo.FromUUID (demo.Properties 3)
              demo.DiskImportOperation demo.schemaDefault
              regexp.disk_key_MatchString w w' tt (demo.devices 3)
              disk_key_MatchString_occurrence Hrun Hvm eq_refl Hwf Hrange)
    as [Hmax (a' & Ha' & Hcount)].
  split.
  - rewrite Hmax. vm_compute. reflexivity.
  - exists a'. split; [exact Ha'|]. rewrite Hcount. vm_compute. reflexivity.
Defined.

(** Claim C2 as it is stated fails, in four ways.  First record: the disk
    count divided by 15 is 2^31, which [int32] turns negative, so the
    controller at bus 0 replaces it and the count is 1, not 2^31 + 1.
    Second record: the disk key 2^32 + 2000 is no key of the snapshot, yet
    [int32] turns it into 2000 and the controller at bus 3 is counted.
    Third record: the key [xdisk.7.keyname] is not [disk.<index>.key], yet
    the expression of line 94, not anchored, matches it and the
    controller at bus 3 is counted.  Fourth record: the disk count is
    unparsable, yet [strconv.Atoi] returns the largest [int] for it, not
    0. *)
Lemma C2_counterexample :
  (let w := demo.record "vm-1"
              [("uuid", "u-1"); ("disk.#", "32212254720");
               ("disk.0.key", "2000")] in
   let out := demo.V2 0 w in
   out.2 = Ok tt ∧
   attr (Attributes (cell out.1)) "scsi_controller_count" = "1" ∧
   Sprintf_int (DerivedBusCount whole_disk_key (Attributes (cell w))
                  (demo.devices 0) + 1) = "2147483649") ∧
  (let w := demo.record "vm-1"
              [("uuid", "u-1"); ("disk.#", "1");
               ("disk.0.key", "4294969296")] in
   let out := demo.V2 3 w in
   out.2 = Ok tt ∧
   attr (Attributes (cell out.1)) "scsi_controller_count" = "4" ∧
   Sprintf_int (DerivedBusCount whole_disk_key (Attributes (cell w))
                  (demo.devices 3) + 1) = "1") ∧
  (let w := demo.record "vm-1"
              [("uuid", "u-1"); ("disk.#", "1");
               ("xdisk.7.keyname", "2000")] in
   let out := demo.V2 3 w in
   out.2 = Ok tt ∧
   attr (Attributes (cell out.1)) "scsi_controller_count" = "4" ∧
   Sprintf_int (DerivedBusCount whole_disk_key (Attributes (cell w))
                  (demo.devices 3) + 1) = "1") ∧
  (let w := demo.record "vm-1"
              [("uuid", "u-1"); ("disk.#", "99999999999999999999x")] in
   let out := demo.V2 0 w in
   decimal "99999999999999999999x" = None ∧
   out.2 = Ok tt ∧
   attr (Attributes (cell out.1)) "scsi_controller_count"
     = "614891469123651721" ∧
   Sprintf_int (DerivedBusCount whole_disk_key (Attributes (cell w))
                  (demo.devices 0) + 1) = "1").
Proof. vm_compute. repeat (apply conj); reflexivity. Qed.

Lemma C3_witness :
  let w := demo.record "vm-1"
             [("uuid", "u-1"); ("disk.#", "1"); ("disk.0.key", "2000")] in
  let w' := (demo.V2 0 w).1 in
  ∃ a', Attributes (cell w') = Some a' ∧
        (∀ k, is_Some (a' !! k) ↔ k ∈ V2_fields).
Proof.
  intros w w'.
  assert (migrateVSphereVirtualMachineStateV2 unit demo.FromUUID
            (demo.Properties 0) demo.DiskImportOperation demo.schemaDefault w
          = (w', Ok tt)) as Hrun by (vm_compute; reflexivity).
  destruct (C3_final_attributes_are_the_six_fields unit demo.FromUUID
              (demo.Properties 0) demo.DiskImportOperation
              demo.schemaDefault w w' Hrun)
    as (props & d' & a' & _ & Ha' & Hdom & _).
  exists a'. split; [exact Ha' | exact Hdom].
Defined.

(** Claim C3 as it is stated fails: the disk import has put
    [disk.0.key] in the scratch [ResourceData], the step has succeeded,
    and the record does not have the attribute. *)
Lemma C3_counterexample :
  let w := demo.record "vm-1"
             [("uuid", "u-1"); ("disk.#", "1"); ("disk.0.key", "2000")] in
  let out := demo.V2 0 w in
  out.2 = Ok tt ∧
  trace out.1 =
    [LogMigrateUUID "vm-1" "u-1"; CallFromUUID "u-1"; CallProperties;
     CallDiskImportOperation (scratch 0) (demo.devices 0);
     LogMigrationComplete] ∧
  (demo.DiskImportOperation (scratch 0) (demo.devices 0)).1 !! "disk.0.key"
    = Some "2000" ∧
  has_attr (Attributes (cell out.1)) "disk.0.key" = false.
Proof. vm_compute. repeat (apply conj); reflexivity. Qed.

Lemma C4_witness :
  let w := demo.record "vm-old" [("disk.#", "1")] in
  demo.V2 0 w =
  (w, Error "resource ID vm-old has no UUID. State cannot be migrated").
Proof.
  intros w.
  assert (absent_or_empty (Attributes (cell w)) "uuid") as Hid.
  { left. vm_compute. reflexivity. }
  exact (proj1 (C4_missing_uuid_fails InstanceState_Empty unit demo.FromUUID
                  (demo.Properties 0) demo.DiskImportOperation
                  demo.schemaDefault w Hid)).
Defined.

Lemma C5_witness :
  let w := demo.record "vm-old" [("uuid", "gone")] in
  let out := demo.V2 0 w in
  out.2 = Error "error fetching virtual machine: not found" ∧
  cell out.1 = cell w.
Proof.
  intros w out. split; [vm_compute; reflexivity|].
  assert (migrateVSphereVirtualMachineStateV2 unit demo.FromUUID
            (demo.Properties 0) demo.DiskImportOperation demo.schemaDefault w
          = (out.1, Error "error fetching virtual machine: not found"))
    as Hrun by (vm_compute; reflexivity).
  exact (proj1 (C5_V2_atomic_on_failure unit demo.FromUUID
                  (demo.Properties 0) demo.DiskImportOperation
                  demo.schemaDefault w out.1
                  "error fetching virtual machine: not found" Hrun)).
Defined.



Lemma C7_witness :
  let w := demo.record "vm-old" [("skip_customization", "true")] in
  ∃ a',
    Attributes (cell (migrateVSphereVirtualMachineStateV1
                        InstanceState_Empty w).1) = Some a' ∧
    a' !! "skip_customization" = Some "true" ∧
    a' !! "enable_disk_uuid" = Some "false".
Proof.
  intros w.
  set (a := list_to_map [("skip_customization", "true")]
            : gmap string string).
  assert (InstanceState_Empty (cell w) = false) as HE
    by (vm_compute; reflexivity).
  destruct (C7_flags_default_false InstanceState_Empty w a
              "skip_customization" HE eq_refl (or_introl eq_refl))
    as (a1 & Ha1 & _ & Hkeep).
  destruct (C7_flags_default_false InstanceState_Empty w a
              "enable_disk_uuid" HE eq_refl (or_intror eq_refl))
    as (a2 & Ha2 & Hset & _).
  exists a1. split; [exact Ha1|]. split.
  - apply Hkeep; [vm_compute; reflexivity|discriminate].
  - rewrite Ha1 in Ha2. injection Ha2 as <-.
    apply Hset. left. vm_compute. reflexivity.
Defined.

(** Claim C7 as it is stated fails.  First record: [skip_customization]
    is set, to the empty string, and the step overwrites it.  Second
    record: without attribute map the step only logs, and the attribute,
    absent, stays absent. *)
Lemma C7_counterexample :
  (let w := demo.record "vm-1"
              [("skip_customization", EmptyString); ("name", "vm")] in
   let out := migrateVSphereVirtualMachineStateV1 InstanceState_Empty w in
   Attributes (cell w) =
     Some (list_to_map [("skip_customization", EmptyString); ("name", "vm")]) ∧
   has_attr (Attributes (cell w)) "skip_customization" = true ∧
   Attributes (cell out.1) =
     Some (list_to_map [("skip_customization", "false"); ("name", "vm");
                        ("enable_disk_uuid", "false")])) ∧
  (let w := {| cell := {| ID := "vm-1"; Attributes := None |};
               trace := [] |} in
   let out := migrateVSphereVirtualMachineStateV1 InstanceState_Empty w in
   out.2 = Ok tt ∧
   has_attr (Attributes (cell out.1)) "skip_customization" = false).
Proof.
  split.
  - split; [reflexivity|]. split; [vm_compute; reflexivity|].
    apply (bool_decide_unpack _). vm_compute. exact I.
  - vm_compute. split; reflexivity.
Qed.

Lemma C9_witness :
  let w := demo.record "vm-1" [("uuid", "u-1")] in
  demo.Migrate 0 2 Ref w =
  ({| cell := cell w; trace := [LogCompleted 2 (cell w)] |}, Ok Ref).
Proof.
  intros w.
  assert (2 ≠ 0) as H0 by lia. assert (2 ≠ 1) as H1 by lia.
  assert (InstanceState_Empty (cell w) = false) as HE
    by (vm_compute; reflexivity).
  exact (C9_unregistered_version_fixed_point unit demo.FromUUID
           (demo.Properties 0) demo.DiskImportOperation demo.schemaDefault
           InstanceState_Empty 2 w H0 H1 HE).
Defined.

Lemma C10_witness :
  let w := demo.record "vm-1"
             [("uuid", "u-1"); ("wait_for_guest_net", "false")] in
  ∃ a', Attributes (cell (demo.V2 0 w).1) = Some a' ∧
        a' !! "wait_for_guest_net_timeout" = Some "-1".
Proof.
  intros w.
  assert (migrateVSphereVirtualMachineStateV2 unit demo.FromUUID
            (demo.Properties 0) demo.DiskImportOperation demo.schemaDefault w
          = ((demo.V2 0 w).1, Ok tt)) as Hrun by (vm_compute; reflexivity).
  destruct (C10_guest_net_timeout unit demo.FromUUID (demo.Properties 0)
              demo.DiskImportOperation demo.schemaDefault w
              (demo.V2 0 w).1 Hrun)
    as (a' & Ha' & Hfalse & _).
  exists a'. split; [exact Ha'|]. apply Hfalse. vm_compute. reflexivity.
Defined.

(** * Further properties *)

(** ** Step V1 keeps what it finds *)

Section V1_more.
Import string_facts.
Variable Empty : InstanceState → bool.

(** The loop acts on a key exactly when the key is [disk.<index>.size]
    for an index without dot (the empty index included), and then derives
    [disk.<index>.controller_type]; lines 164 to 169. *)
Theorem X_controller_type_key_iff (k s : string) :
  controller_type_key k = Some s ↔
  ∃ index, dotless index ∧ k = size_key index ∧ s = ctype_key index.
Proof.
  split.
  - apply controller_type_key_inv.
  - intros (index & Hi & -> & ->). by apply controller_type_key_size.
Qed.

Lemma backfill_not_size_key (a : gmap string string) k :
  controller_type_key k = None → backfill a k = a.
Proof. unfold backfill. by intros ->. Qed.

Lemma foldl_backfill_filter (a : gmap string string) ks :
  foldl backfill a ks =
  foldl backfill a (filter (λ k, is_Some (controller_type_key k)) ks).
Proof.
  revert a. induction ks as [|k ks IH]; intros a; [done|].
  destruct (controller_type_key k) as [s|] eqn:Hk.
  - rewrite filter_cons_True by (rewrite Hk; by eexists). simpl. apply IH.
  - rewrite filter_cons_False by (rewrite Hk; by intros [??]). simpl.
    rewrite backfill_not_size_key by done. apply IH.
Qed.

Lemma filter_derived_keys ks extra :
  Forall derived_key extra →
  filter (λ k, is_Some (controller_type_key k)) (ks ++ extra) =
  filter (λ k, is_Some (controller_type_key k)) ks.
Proof.
  intros Hextra. rewrite filter_app.
  assert (filter (λ k, is_Some (controller_type_key k)) extra = []) as ->.
  { induction Hextra as [|k extra [k0 Hk] _ IH]; [done|].
    rewrite filter_cons_False; [done|].
    apply controller_type_key_inv in Hk as (index & _ & _ & ->).
    rewrite controller_type_key_ctype. by intros [??]. }
  by rewrite app_nil_r.
Qed.

(** The loop of lines 163 to 174 does not depend on how Go's [range]
    walks the map: visiting the keys in another order, and visiting any of
    the keys the loop itself has added, leaves the same record. *)
Theorem X_V1_loop_order_irrelevant
    (ks ks' extra : list string) (w : World) (a : gmap string string) :
  Attributes (cell w) = Some a →
  Forall derived_key extra →
  ks' ≡ₚ ks ++ extra →
  for_each backfill_controller_type ks' w =
  for_each backfill_controller_type ks w.
Proof.
  intros Ha Hextra Hperm.
  rewrite (for_each_backfill ks' w a Ha), (for_each_backfill ks w a Ha).
  rewrite (foldl_backfill_filter a ks'), (foldl_backfill_filter a ks).
  rewrite (foldl_backfill_perm a
             (filter (λ k, is_Some (controller_type_key k)) ks')
             (filter (λ k, is_Some (controller_type_key k)) ks)); [done|].
  rewrite <- (filter_derived_keys ks extra Hextra). by rewrite Hperm.
Qed.

(** Step V1 never fails, never changes the id, leaves a nil attribute map
    nil, and only adds to the attributes: every attribute keeps its value,
    but a flag that holds the empty string. *)
Theorem X_V1_conservative (w : World) :
  let out := migrateVSphereVirtualMachineStateV1 Empty w in
  out.2 = Ok tt ∧
  ID (cell out.1) = ID (cell w) ∧
  (Attributes (cell w) = None → Attributes (cell out.1) = None) ∧
  (∀ a k v, Attributes (cell w) = Some a → a !! k = Some v →
     v ≠ EmptyString ∨ ¬ is_flag k →
     ∃ a', Attributes (cell out.1) = Some a' ∧ a' !! k = Some v).
Proof.
  destruct (Attributes (cell w)) as [a|] eqn:Ha.
  2: { simpl. rewrite (V1_noop Empty w) by auto. simpl.
       repeat split; try done. }
  destruct (Empty (cell w)) eqn:HE.
  { simpl. rewrite (V1_noop Empty w) by auto. simpl.
    repeat split; try done. intros a0 k v [= <-] Hk _. by exists a. }
  simpl. rewrite (V1_run Empty w a HE Ha). simpl.
  repeat split; try done.
  intros a0 k v [= <-] Hk Hkeep. exists (V1_attributes a). split; [done|].
  destruct (decide (is_flag k)) as [Hflag|Hflag].
  - rewrite (V1_attributes_flag a k Hflag), Hk. simpl.
    destruct Hkeep as [Hv|]; [|done].
    by apply String.eqb_neq in Hv as ->.
  - apply V1_attributes_old; [done|..]; intros ->; apply Hflag;
      [by left|by right].
Qed.

End V1_more.

(** ** The scan of step V2 *)

Section Scan_more.

Lemma scan_bus_scanned l maxBus kv :
  scan_bus l maxBus kv =
  match scanned_bus l kv with
  | Some b => if int32 maxBus <? b then b else maxBus
  | None => maxBus
  end.
Proof.
  unfold scan_bus, scanned_bus.
  destruct (negb (regexp.disk_key_MatchString kv.1)); [done|].
  destruct (strconv.Atoi kv.2 <? 1); [done|].
  destruct (FindByKey l (int32 (strconv.Atoi kv.2))) as [device|]; simpl;
    [|done].
  destruct (FindByKey l (ControllerKey device)) as [ctlr|]; simpl; [|done].
  by destruct (Kind ctlr).
Qed.

Lemma scanned_bus_in_int32 l kv b :
  Forall device_wf l → scanned_bus l kv = Some b → in_int32 b.
Proof.
  intros Hwf. unfold scanned_bus.
  destruct (negb (regexp.disk_key_MatchString kv.1)); [done|].
  destruct (strconv.Atoi kv.2 <? 1); [done|].
  destruct (FindByKey l (int32 (strconv.Atoi kv.2))) as [device|]; simpl;
    [|done].
  destruct (FindByKey l (ControllerKey device)) as [ctlr|] eqn:Hc; simpl;
    [|done].
  apply FindByKey_elem in Hc.
  rewrite Forall_forall in Hwf. destruct (Hwf ctlr Hc) as (_ & _ & Hb).
  destruct (Kind ctlr); [|done]. by intros [= <-].
Qed.

Lemma int32_range x : in_int32 (int32 x).
Proof.
  unfold in_int32, int32.
  pose proof (Z.mod_pos_bound (x + 2 ^ 31) (2 ^ 32)). lia.
Qed.

Lemma digits_lt acc s n :
  0 ≤ acc → strconv.digits acc s = Some n →
  n < (acc + 1) * 10 ^ Z.of_nat (String.length s).
Proof.
  revert acc. induction s as [|c s IH]; intros acc Hacc.
  - simpl. intros [= <-]. lia.
  - cbn [strconv.digits String.length].
    destruct (strconv.digit c) as [d|] eqn:Hd; [|done].
    apply digit_range in Hd. intros Hn. apply IH in Hn; [|lia].
    rewrite Nat2Z.inj_succ, Z.pow_succ_r by lia.
    pose proof (Z.pow_pos_nonneg 10 (Z.of_nat (String.length s))).
    nia.
Qed.

Lemma split_sign_length s neg body :
  strconv.split_sign s = (neg, body) →
  (String.length body ≤ String.length s)%nat.
Proof.
  unfold strconv.split_sign. destruct s as [|c s]; [by intros [= <- <-]|].
  destruct (Ascii.eqb_spec c "-") as [->|]; [intros [= <- <-]; simpl; lia|].
  destruct (Ascii.eqb_spec c "+") as [->|]; [intros [= <- <-]; simpl; lia|].
  assert (match c with
          | "-"%char => (true, s)
          | "+"%char => (false, s)
          | _ => (false, String c s)
          end = (false, String c s)) as ->; [|by intros [= <- <-]].
  destruct c as [[] [] [] [] [] [] [] []]; done.
Qed.

(** [Atoi] returns an [int]: the fast path of short strings cannot
    overflow and the slow path clamps. *)
Lemma Atoi_range s :
  strconv.minInt64 ≤ strconv.Atoi s ≤ strconv.maxInt64.
Proof.
  unfold strconv.Atoi, strconv.minInt64, strconv.maxInt64.
  destruct (strconv.split_sign s) as [neg body] eqn:Hs.
  destruct ((0 <? String.length s)%nat && (String.length s <? 19)%nat)
    eqn:Hlen.
  - destruct body as [|c r]; [lia|].
    destruct (strconv.digits 0 (String c r)) as [n|] eqn:Hd; [|lia].
    pose proof (digits_ge 0 _ _ (Z.le_refl 0) Hd).
    pose proof (digits_lt 0 _ _ (Z.le_refl 0) Hd) as Hlt.
    apply split_sign_length in Hs.
    apply andb_prop in Hlen as [_ Hlen%Nat.ltb_lt].
    assert (10 ^ Z.of_nat (String.length (String c r)) ≤ 10 ^ 18).
    { apply Z.pow_le_mono_r; lia. }
    destruct neg; lia.
  - unfold strconv.ParseInt. destruct s as [|c0 s0]; [simpl; lia|].
    rewrite Hs. unfold strconv.ParseUint.
    destruct body as [|c r]; [simpl; lia|].
    destruct (strconv.ParseUint_loop 0 (String c r)) as [un| |un] eqn:Hloop;
      [| simpl; lia |].
    + apply ParseUint_loop_Number in Hloop.
      pose proof (digits_ge 0 _ _ (Z.le_refl 0) Hloop).
      destruct neg; cbn [negb andb].
      * destruct (Z.ltb_spec (2 ^ 63) un); cbn [strconv.returned]; lia.
      * destruct (Z.leb_spec (2 ^ 63) un); cbn [strconv.returned]; lia.
    + apply ParseUint_loop_ErrRange in Hloop. subst un.
      destruct neg; vm_compute; split; discriminate.
Qed.

Lemma foldr_max_ge_base m xs : m ≤ foldr Z.max m xs.
Proof. induction xs as [|x xs IH]; simpl; lia. Qed.

Lemma foldr_max_ge_elem m xs x : x ∈ xs → x ≤ foldr Z.max m xs.
Proof.
  induction xs as [|y xs IH]; intros Hx; [by apply elem_of_nil in Hx|].
  apply elem_of_cons in Hx as [->|Hx]; simpl; [lia|].
  specialize (IH Hx). lia.
Qed.

Lemma foldr_max_incl m xs ys :
  (∀ x, x ∈ xs → x ∈ ys) → foldr Z.max m xs ≤ foldr Z.max m ys.
Proof.
  induction xs as [|x xs IH]; intros Hincl; simpl.
  - apply foldr_max_ge_base.
  - apply Z.max_lub.
    + apply foldr_max_ge_elem, Hincl. by left.
    + apply IH. intros y Hy. apply Hincl. by right.
Qed.

(** The maximum depends on the elements only. *)
Lemma foldr_max_same_elements m xs ys :
  (∀ x, x ∈ xs ↔ x ∈ ys) → foldr Z.max m xs = foldr Z.max m ys.
Proof.
  intros H. apply Z.le_antisymm; apply foldr_max_incl; intros x; apply H.
Qed.

Lemma foldr_max_in_int32 m xs :
  in_int32 m → Forall in_int32 xs → in_int32 (foldr Z.max m xs).
Proof.
  intros Hm. induction 1 as [|x xs Hx _ IH]; simpl; [done|].
  unfold in_int32 in *. lia.
Qed.

(** The value of the loop of lines 93 to 112 from any start and for any
    list of entries: the start, unless a scanned bus number is above the
    32 bits of the start, and then the largest scanned bus number. *)
Lemma foldl_scan_bus_value l kvs maxBus :
  Forall device_wf l →
  let top := foldr Z.max (int32 maxBus) (omap (scanned_bus l) kvs) in
  foldl (scan_bus l) maxBus kvs = if int32 maxBus <? top then top else maxBus.
Proof.
  intros Hwf. cbv zeta. revert maxBus.
  induction kvs as [|kv kvs IH]; intros maxBus.
  { simpl. by rewrite Z.ltb_irrefl. }
  cbn [foldl]. rewrite scan_bus_scanned.
  change (omap (scanned_bus l) (kv :: kvs))
    with (match scanned_bus l kv with
          | Some b => b :: omap (scanned_bus l) kvs
          | None => omap (scanned_bus l) kvs
          end).
  destruct (scanned_bus l kv) as [b|] eqn:Hb; [|apply IH].
  pose proof (scanned_bus_in_int32 l kv b Hwf Hb) as Hbr.
  set (bs := omap (scanned_bus l) kvs) in *.
  cbn [foldr].
  pose proof (foldr_max_ge_base (int32 maxBus) bs) as Hbase.
  destruct (Z.ltb_spec (int32 maxBus) b) as [Hlt|Hge].
  - rewrite IH, (int32_small b Hbr).
    pose proof (foldr_max_ge_base b bs) as Hb'.
    assert (Z.max b (foldr Z.max (int32 maxBus) bs) = foldr Z.max b bs)
      as ->.
    { rewrite <- foldr_max_shift. f_equal. lia. }
    destruct (Z.ltb_spec b (foldr Z.max b bs));
      destruct (Z.ltb_spec (int32 maxBus) (foldr Z.max b bs)); lia.
  - rewrite IH.
    assert (Z.max b (foldr Z.max (int32 maxBus) bs)
            = foldr Z.max (int32 maxBus) bs) as -> by lia.
    done.
Qed.

(** The [maxBus] of lines 90 to 112 is the disk count divided by 15,
    unless a scanned SCSI controller has a bus number above the 32 bits of
    that quotient, and then it is the largest scanned bus number. *)
Theorem X_maxBus_value (a : option (gmap string string))
    (l : list VirtualDevice) :
  Forall device_wf l →
  let base := strconv.Atoi (attr a "disk.#") ÷ 15 in
  let top := foldr Z.max (int32 base) (omap (scanned_bus l) (entries a)) in
  derive_maxBus a l = if int32 base <? top then top else base.
Proof. intros Hwf. apply foldl_scan_bus_value, Hwf. Qed.

(** The loop of lines 93 to 112 does not depend on the order in which
    Go's [range] visits the entries of the map. *)
Theorem X_maxBus_order_irrelevant (a : option (gmap string string))
    (l : list VirtualDevice) (kvs : list (string * string)) :
  Forall device_wf l →
  kvs ≡ₚ entries a →
  foldl (scan_bus l) (strconv.Atoi (attr a "disk.#") ÷ 15) kvs
  = derive_maxBus a l.
Proof.
  intros Hwf Hperm. unfold derive_maxBus.
  rewrite !foldl_scan_bus_value by done. simpl.
  rewrite (foldr_max_same_elements _ (omap (scanned_bus l) kvs)
             (omap (scanned_bus l) (entries a))); [done|].
  intros x. rewrite !list_elem_of_omap.
  split; intros (kv & Hkv & Hx); exists kv; split; try done.
  - by rewrite <- Hperm.
  - by rewrite Hperm.
Qed.

End Scan_more.

(** ** What step V2 writes and calls *)

Section V2_more.
Variable VirtualMachine : Type.
Variable FromUUID : string → Res VirtualMachine.
Variable Properties : VirtualMachine → Res (list VirtualDevice).
Variable DiskImportOperation :
  ResourceData → list VirtualDevice → ResourceData * Res unit.
Variable schemaDefault : string → string.

Local Abbreviation V2 :=
  (migrateVSphereVirtualMachineStateV2 VirtualMachine FromUUID Properties
     DiskImportOperation schemaDefault).

(** [maxBus + 1] stays within [int]. *)
Lemma derive_maxBus_succ_no_wrap a l :
  Forall device_wf l →
  int64 (derive_maxBus a l + 1) = derive_maxBus a l + 1.
Proof.
  intros Hwf. unfold derive_maxBus.
  rewrite foldl_scan_bus_value by done. cbv zeta.
  set (base := strconv.Atoi (attr a "disk.#") ÷ 15).
  set (top := foldr Z.max (int32 base) (omap (scanned_bus l) (entries a))).
  assert (in_int32 top) as Htop.
  { apply foldr_max_in_int32; [apply int32_range|].
    apply Forall_forall. intros b (kv & _ & Hb)%list_elem_of_omap.
    by eapply scanned_bus_in_int32. }
  assert (- 2 ^ 63 ≤ base < 2 ^ 63 - 1) as Hbase.
  { pose proof (Atoi_range (attr a "disk.#")) as Hr.
    unfold strconv.minInt64, strconv.maxInt64 in Hr. unfold base.
    pose proof (Z.quot_rem' (strconv.Atoi (attr a "disk.#")) 15).
    pose proof (Z.rem_bound_abs (strconv.Atoi (attr a "disk.#")) 15).
    lia. }
  unfold int64, in_int32 in *.
  destruct (int32 base <? top); rewrite Z.mod_small; lia.
Qed.

(** The [scsi_controller_count] step V2 leaves is the decimal of
    [maxBus + 1], with no wrap-around, and replaces the schema default
    written at line 136; the scratch [ResourceData] of the disk import
    holds the same count. *)
Theorem X_V2_count_is_maxBus_plus_one
    (w w' : World) (vm : VirtualMachine) (props : list VirtualDevice) :
  V2 w = (w', Ok tt) →
  FromUUID (attr (Attributes (cell w)) "uuid") = Ok vm →
  Properties vm = Ok props →
  Forall device_wf props →
  let count := Sprintf_int (derive_maxBus (Attributes (cell w)) props + 1) in
  (∃ a', Attributes (cell w') = Some a' ∧
         a' !! "scsi_controller_count" = Some count) ∧
  CallDiskImportOperation {[ "scsi_controller_count" := count ]} props
    ∈ trace w'.
Proof.
  intros Hrun Hvm Hprops Hwf.
  apply V2_success_inv in Hrun
    as (vm' & props' & d' & _ & Hvm' & Hprops' & _ & ->).
  rewrite Hvm in Hvm'. injection Hvm' as <-.
  rewrite Hprops in Hprops'. injection Hprops' as <-.
  cbv zeta. simpl. split.
  - eexists. split; [done|].
    by rewrite V2_attributes_count, derive_maxBus_succ_no_wrap.
  - unfold scratch. rewrite derive_maxBus_succ_no_wrap by done.
    apply elem_of_app. right. set_solver.
Qed.

(** A successful step V2 leaves the record under the UUID of the legacy
    record, not empty, marked as imported, with the schema defaults of the
    three fields it does not derive. *)
Theorem X_V2_success_record (w w' : World) :
  V2 w = (w', Ok tt) →
  ID (cell w') = attr (Attributes (cell w)) "uuid" ∧
  ID (cell w') ≠ EmptyString ∧
  ∃ a', Attributes (cell w') = Some a' ∧
    a' !! "imported" = Some "true" ∧
    a' !! "force_power_off" = Some (schemaDefault "force_power_off") ∧
    a' !! "migrate_wait_timeout"
      = Some (schemaDefault "migrate_wait_timeout") ∧
    a' !! "shutdown_wait_timeout"
      = Some (schemaDefault "shutdown_wait_timeout").
Proof.
  intros Hrun.
  apply V2_success_inv in Hrun as (vm & props & d' & Hid & _ & _ & _ & ->).
  simpl. split; [done|]. split; [done|]. eexists. split; [done|].
  unfold V2_attributes. by simplify_map_eq.
Qed.

(** Step V2 only adds to the trace, and calls its collaborators in the
    order lookup by UUID, properties, disk import, each once and only
    after the one before has succeeded; without UUID it calls none. *)
Theorem X_V2_calls (w : World) :
  let id := attr (Attributes (cell w)) "uuid" in
  ∃ evs, trace (V2 w).1 = trace w ++ evs ∧
    List.filter is_call evs =
    if String.eqb id EmptyString then []
    else
      match FromUUID id with
      | Error _ => [CallFromUUID id]
      | Ok vm =>
          match Properties vm with
          | Error _ => [CallFromUUID id; CallProperties]
          | Ok props =>
              [CallFromUUID id; CallProperties;
               CallDiskImportOperation
                 (scratch (derive_maxBus (Attributes (cell w)) props)) props]
          end
      end.
Proof.
  cbv zeta.
  unfold migrateVSphereVirtualMachineStateV2, call_FromUUID,
    call_Properties, call_DiskImportOperation. run_M.
  destruct (String.eqb (attr (Attributes (cell w)) "uuid") EmptyString).
  { exists []. by rewrite app_nil_r. }
  destruct (FromUUID _) as [vm|err].
  2: { simpl. eexists. rewrite <- List.app_assoc. split; [done|]. done. }
  destruct (Properties vm) as [props|err]; simpl.
  2: { eexists. rewrite <- !List.app_assoc. split; [done|]. done. }
  fold (scratch (derive_maxBus (Attributes (cell w)) props)).
  destruct (DiskImportOperation _ props) as [d' [[]|err]]; simpl.
  - eexists. rewrite <- !List.app_assoc. split; [done|]. done.
  - eexists. rewrite <- !List.app_assoc. split; [done|]. done.
Qed.

End V2_more.

(** ** What the dispatcher returns *)

Section Dispatcher_more.
Variable Empty : InstanceState → bool.
Variable VirtualMachine : Type.
Variable FromUUID : string → Res VirtualMachine.
Variable Properties : VirtualMachine → Res (list VirtualDevice).
Variable DiskImportOperation :
  ResourceData → list VirtualDevice → ResourceData * Res unit.
Variable schemaDefault : string → string.

Local Abbreviation V1 := (migrateVSphereVirtualMachineStateV1 Empty).
Local Abbreviation V2 :=
  (migrateVSphereVirtualMachineStateV2 VirtualMachine FromUUID Properties
     DiskImportOperation schemaDefault).
Local Abbreviation Migrate :=
  (resourceVSphereVirtualMachineMigrateState Empty VirtualMachine FromUUID
     Properties DiskImportOperation schemaDefault).

Lemma V1_ok w : (V1 w).2 = Ok tt.
Proof.
  destruct (Attributes (cell w)) as [a|] eqn:Ha.
  2: { by rewrite (V1_noop Empty w) by auto. }
  destruct (Empty (cell w)) eqn:HE.
  - by rewrite (V1_noop Empty w) by auto.
  - by rewrite (V1_run Empty w a HE Ha).
Qed.

(** The record step V1 leaves does not depend on the trace. *)
Lemma V1_cell c t t' :
  cell (V1 {| cell := c; trace := t |}).1 =
  cell (V1 {| cell := c; trace := t' |}).1.
Proof.
  destruct (Attributes c) as [a|] eqn:Ha.
  2: { rewrite !(V1_noop Empty) by (simpl; auto). done. }
  destruct (Empty c) eqn:HE.
  - rewrite !(V1_noop Empty) by (simpl; auto). done.
  - by rewrite !(V1_run Empty _ a) by done.
Qed.

(** From version 2 on the dispatcher does not fail. *)
Lemma Migrate_done version w :
  version ≠ 0 → version ≠ 1 →
  ∃ w', Migrate version Ref w = (w', Ok Ref) ∧ cell w' = cell w.
Proof.
  intros H0 H1. destruct (Empty (cell w)) eqn:HE.
  - exists w. by rewrite Migrate_empty.
  - rewrite Migrate_unfold by done. unfold migrateFunc.
    destruct (Z.eqb_spec version 1); [done|].
    destruct (Z.eqb_spec version 0); [done|]. by eexists.
Qed.

Lemma Migrate_1_failure w w' msg :
  Migrate 1 Ref w = (w', Error msg) →
  Empty (cell w) = false ∧
  V2 {| cell := cell w; trace := trace w ++ [LogOldState 1 (cell w)] |}
    = (w', Error msg) ∧
  cell w' = cell w.
Proof.
  intros H. destruct (Empty (cell w)) eqn:HE.
  { by rewrite Migrate_empty in H. }
  rewrite Migrate_unfold in H by done. simpl in H.
  destruct (V2 _) as [w1 [[]|err]] eqn:HV2.
  - destruct (Migrate_done (1 + 1)
                {| cell := cell w1;
                   trace := trace w1 ++ [LogNewState (1 + 1) (cell w1)] |})
      as (w2 & Hw2 & _); [done..|].
    rewrite Hw2 in H. discriminate H.
  - injection H as <- <-. split; [done|]. split; [done|].
    by apply V2_error_inv in HV2 as [Hcell _].
Qed.

(** An error of the dispatcher is an error of step V2.  At version 1 the
    record is then as it was; at version 0 it is as step V1 has left it:
    the changes of step V1 are not taken back. *)
Theorem X_Migrate_failure (version : Z) (w w' : World) (msg : string) :
  Migrate version Ref w = (w', Error msg) →
  Empty (cell w) = false ∧
  ∃ w1, V2 w1 = (w', Error msg) ∧ cell w' = cell w1 ∧
    ((version = 1 ∧ cell w1 = cell w) ∨
     (version = 0 ∧ cell w1 = cell (V1 w).1)).
Proof.
  intros H. destruct (Empty (cell w)) eqn:HE.
  { by rewrite Migrate_empty in H. }
  split; [done|].
  destruct (decide (version = 1)) as [->|H1].
  { apply Migrate_1_failure in H as (_ & HV2 & Hcell).
    eexists. split; [exact HV2|]. split; [done|]. by left. }
  destruct (decide (version = 0)) as [->|H0].
  2: { destruct (Migrate_done version w H0 H1) as (w2 & Hw2 & _).
       rewrite Hw2 in H. discriminate H. }
  rewrite Migrate_unfold in H by done. simpl in H.
  pose proof (V1_ok {| cell := cell w;
                       trace := trace w ++ [LogOldState 0 (cell w)] |}) as Hok.
  pose proof (V1_cell (cell w) (trace w ++ [LogOldState 0 (cell w)])
                (trace w)) as Hcell1.
  destruct (V1 _) as [w1 r]. simpl in Hok, Hcell1. subst r.
  apply Migrate_1_failure in H as (_ & HV2 & Hcell). simpl in *.
  eexists. split; [exact HV2|]. split; [done|]. right. split; [done|].
  simpl. rewrite Hcell1. by destruct w.
Qed.

(** The dispatcher returns the pointer it was given, or an error; given
    nil it returns nil and touches nothing. *)
Theorem X_Migrate_pointer (version : Z) (os p : Ptr) (w w' : World) :
  Migrate version os w = (w', Ok p) →
  p = os ∧ (os = Nil → w' = w).
Proof.
  destruct os.
  { rewrite Migrate_nil. by intros [= <- <-]. }
  intros H. split; [|done].
  assert (∀ v x x' q, v ≠ 0 → v ≠ 1 →
            Migrate v Ref x = (x', Ok q) → q = Ref) as Hdone.
  { intros v x x' q H0 H1 Hq.
    destruct (Migrate_done v x H0 H1) as (x2 & Hx2 & _).
    rewrite Hx2 in Hq. by injection Hq as _ <-. }
  assert (∀ x x' q, Migrate 1 Ref x = (x', Ok q) → q = Ref) as Hone.
  { intros x x' q Hq. destruct (Empty (cell x)) eqn:HE.
    { rewrite Migrate_empty in Hq by done. by injection Hq as _ <-. }
    rewrite Migrate_unfold in Hq by done. simpl in Hq.
    destruct (V2 _) as [x1 [[]|err]]; [|done].
    by eapply Hdone in Hq. }
  destruct (decide (version = 1)) as [->|H1]; [by eapply Hone|].
  destruct (decide (version = 0)) as [->|H0]; [|by eapply Hdone].
  destruct (Empty (cell w)) eqn:HE.
  { rewrite Migrate_empty in H by done. by injection H as _ <-. }
  rewrite Migrate_unfold in H by done. simpl in H.
  destruct (V1 _) as [x1 [[]|err]]; [|done].
  by eapply Hone in H.
Qed.

End Dispatcher_more.

(** ** Step V1 before step V2 *)

Section Compose.
Import string_facts.
Variable Empty : InstanceState → bool.
Variable VirtualMachine : Type.
Variable FromUUID : string → Res VirtualMachine.
Variable Properties : VirtualMachine → Res (list VirtualDevice).
Variable DiskImportOperation :
  ResourceData → list VirtualDevice → ResourceData * Res unit.
Variable schemaDefault : string → string.

Local Abbreviation V1 := (migrateVSphereVirtualMachineStateV1 Empty).
Local Abbreviation V2 :=
  (migrateVSphereVirtualMachineStateV2 VirtualMachine FromUUID Properties
     DiskImportOperation schemaDefault).
Local Abbreviation Migrate :=
  (resourceVSphereVirtualMachineMigrateState Empty VirtualMachine FromUUID
     Properties DiskImportOperation schemaDefault).

Lemma derived_key_ctype k : derived_key k → ∃ index, k = ctype_key index.
Proof.
  intros [k0 (index & _ & _ & ->)%controller_type_key_inv]. by exists index.
Qed.

(** Step V1 leaves alone every key that is neither a flag nor a key its
    loop derives. *)
Lemma V1_attributes_other (a : gmap string string) k :
  ¬ is_flag k → ¬ derived_key k → V1_attributes a !! k = a !! k.
Proof.
  intros Hflag Hder. destruct (a !! k) as [v|] eqn:Hk.
  - apply V1_attributes_old; [done|..]; intros ->; apply Hflag;
      [by left|by right].
  - apply eq_None_not_Some. intros Hnew.
    destruct (V1_attributes_new a k Hk Hnew) as [->|[->|(i & Hi & _ & ->)]].
    + apply Hflag. by left.
    + apply Hflag. by right.
    + apply Hder. exists (size_key i). by apply controller_type_key_size.
Qed.

Lemma V2_inputs_not_touched k :
  k = "uuid" ∨ k = "disk.#" ∨ k = "wait_for_guest_net" →
  ¬ is_flag k ∧ ¬ derived_key k.
Proof.
  intros Hk. split.
  - intros [-> | ->]; by destruct Hk as [|[|]].
  - intros [index ->]%derived_key_ctype.
    destruct Hk as [Hk|[Hk|Hk]]; try discriminate Hk.
    unfold ctype_key in Hk. rewrite !app_cons in Hk.
    injection Hk as Hk. rewrite app_nil_l in Hk.
    destruct index as [|c [|c' i]]; rewrite ?app_cons, ?app_nil_l in Hk;
      discriminate Hk.
Qed.

Lemma V1_keeps_attr (a : gmap string string) k :
  k = "uuid" ∨ k = "disk.#" ∨ k = "wait_for_guest_net" →
  attr (Some (V1_attributes a)) k = attr (Some a) k.
Proof.
  intros [Hflag Hder]%V2_inputs_not_touched. simpl.
  by rewrite V1_attributes_other.
Qed.

Lemma scanned_bus_small l k v :
  strconv.Atoi v < 1 → scanned_bus l (k, v) = None.
Proof.
  intros Hv. unfold scanned_bus. simpl.
  destruct (negb (regexp.disk_key_MatchString k)); [done|].
  by destruct (Z.ltb_spec (strconv.Atoi v) 1); [|lia].
Qed.

(** An entry after step V1 is an entry from before, or holds ["false"]
    or ["scsi"]. *)
Lemma V1_attributes_entry_back (a : gmap string string) k v :
  V1_attributes a !! k = Some v →
  a !! k = Some v ∨ v = "false" ∨ v = "scsi".
Proof.
  intros Hk. destruct (decide (is_flag k)) as [Hflag|Hflag].
  { rewrite (V1_attributes_flag a k Hflag) in Hk. injection Hk as <-.
    destruct (a !! k) as [v0|]; simpl; [|by right; left].
    destruct (String.eqb v0 EmptyString); [by right; left|by left]. }
  destruct (a !! k) as [v0|] eqn:Hk0.
  - left. rewrite (V1_attributes_old a k v0 Hk0) in Hk.
    + by injection Hk as <-.
    + intros ->. apply Hflag. by left.
    + intros ->. apply Hflag. by right.
  - assert (is_Some (V1_attributes a !! k)) as Hnew by by eexists.
    destruct (V1_attributes_new a k Hk0 Hnew)
      as [->|[->|(i & Hi & Hs & ->)]].
    + destruct Hflag. by left.
    + destruct Hflag. by right.
    + rewrite (V1_attributes_ctype a i Hi Hs), Hk0 in Hk.
      injection Hk as <-. right. by right.
Qed.

(** An entry from before step V1 is still there, or held the empty
    string. *)
Lemma V1_attributes_entry_fwd (a : gmap string string) k v :
  a !! k = Some v →
  V1_attributes a !! k = Some v ∨ v = EmptyString.
Proof.
  intros Hk. destruct (decide (is_flag k)) as [Hflag|Hflag].
  - rewrite (V1_attributes_flag a k Hflag), Hk. simpl.
    destruct (String.eqb_spec v EmptyString); [by right|by left].
  - left. apply V1_attributes_old; [done|..];
      intros ->; apply Hflag; [by left|by right].
Qed.

(** The scan of step V2 finds the same bus numbers after step V1. *)
Lemma V1_scanned (a : gmap string string) l x :
  x ∈ omap (scanned_bus l) (map_to_list (V1_attributes a)) ↔
  x ∈ omap (scanned_bus l) (map_to_list a).
Proof.
  rewrite !list_elem_of_omap. split.
  - intros ([k v] & Hin%elem_of_map_to_list & Hx).
    apply V1_attributes_entry_back in Hin as [Hin|[->| ->]].
    + exists (k, v). by rewrite elem_of_map_to_list.
    + by rewrite scanned_bus_small in Hx by (by vm_compute).
    + by rewrite scanned_bus_small in Hx by (by vm_compute).
  - intros ([k v] & Hin%elem_of_map_to_list & Hx).
    apply V1_attributes_entry_fwd in Hin as [Hin| ->].
    + exists (k, v). by rewrite elem_of_map_to_list.
    + by rewrite scanned_bus_small in Hx by (by vm_compute).
Qed.

(** Step V2 derives the same [maxBus] from the attributes step V1 has
    left as from the attributes before. *)
Lemma derive_maxBus_V1 (a : gmap string string) l :
  Forall device_wf l →
  derive_maxBus (Some (V1_attributes a)) l = derive_maxBus (Some a) l.
Proof.
  intros Hwf. unfold derive_maxBus.
  rewrite !foldl_scan_bus_value by done. cbv zeta.
  rewrite (V1_keeps_attr a "disk.#") by auto.
  cbn [entries].
  rewrite (foldr_max_same_elements _
             (omap (scanned_bus l) (map_to_list (V1_attributes a)))
             (omap (scanned_bus l) (map_to_list a))); [done|].
  apply V1_scanned.
Qed.

(** Step V2 reads the id, three attributes and the scan: on two records
    that agree on them it returns the same, and on success leaves the same
    record. *)
Lemma V2_same_inputs w1 w2 :
  ID (cell w1) = ID (cell w2) →
  (∀ k, k = "uuid" ∨ k = "disk.#" ∨ k = "wait_for_guest_net" →
        attr (Attributes (cell w1)) k = attr (Attributes (cell w2)) k) →
  (∀ vm props, Properties vm = Ok props →
     derive_maxBus (Attributes (cell w1)) props
     = derive_maxBus (Attributes (cell w2)) props) →
  (V2 w1).2 = (V2 w2).2 ∧
  ((V2 w1).2 = Ok tt → cell (V2 w1).1 = cell (V2 w2).1).
Proof.
  intros HID Hattr Hbus.
  unfold migrateVSphereVirtualMachineStateV2, call_FromUUID,
    call_Properties, call_DiskImportOperation. run_M.
  rewrite HID, !(Hattr "uuid") by auto.
  rewrite (Hattr "wait_for_guest_net") by auto.
  destruct (String.eqb (attr (Attributes (cell w2)) "uuid") EmptyString);
    [done|].
  destruct (FromUUID _) as [vm|err]; [|done].
  destruct (Properties vm) as [props|err] eqn:Hprops; simpl; [|done].
  rewrite (Hbus vm props Hprops).
  destruct (DiskImportOperation _ props) as [d' [[]|err]]; simpl; done.
Qed.

Lemma V1_cell_cases w :
  cell (V1 w).1 = cell w ∨
  ∃ a, Attributes (cell w) = Some a ∧
       cell (V1 w).1 =
       {| ID := ID (cell w); Attributes := Some (V1_attributes a) |}.
Proof.
  destruct (Attributes (cell w)) as [a|] eqn:Ha.
  2: { left. by rewrite (V1_noop Empty w) by auto. }
  destruct (Empty (cell w)) eqn:HE.
  - left. by rewrite (V1_noop Empty w) by auto.
  - right. exists a. by rewrite (V1_run Empty w a HE Ha).
Qed.

(** Migrating from version 0 gives what migrating from version 1 gives:
    the same pointer or error, and on success the same record.  Step V1
    changes nothing step V2 reads. *)
Theorem X_Migrate_0_as_1 (w : World) :
  Empty (cell w) = false →
  Empty (cell (V1 w).1) = false →
  (∀ vm props, Properties vm = Ok props → Forall device_wf props) →
  (Migrate 0 Ref w).2 = (Migrate 1 Ref w).2 ∧
  ((Migrate 0 Ref w).2 = Ok Ref →
   cell (Migrate 0 Ref w).1 = cell (Migrate 1 Ref w).1).
Proof.
  intros HE HE1 Hwf.
  rewrite (Migrate_unfold _ _ _ _ _ _ 0 w HE). simpl.
  pose proof (V1_ok Empty {| cell := cell w;
                       trace := trace w ++ [LogOldState 0 (cell w)] |}) as Hok.
  pose proof (V1_cell Empty (cell w) (trace w ++ [LogOldState 0 (cell w)])
                (trace w)) as Hcell1.
  destruct (V1 {| cell := cell w;
                  trace := trace w ++ [LogOldState 0 (cell w)] |})
    as [w1 r] eqn:HV1.
  simpl in Hok, Hcell1. subst r.
  assert (cell w1 = cell (V1 w).1) as Hw1 by (rewrite Hcell1; by destruct w).
  assert (Empty (cell w1) = false) as HEw1 by by rewrite Hw1.
  rewrite (Migrate_unfold _ _ _ _ _ _ (0 + 1)) by done.
  rewrite (Migrate_unfold _ _ _ _ _ _ 1 w HE). simpl.
  set (x1 := {| cell := cell w1;
                trace := (trace w1 ++ [LogNewState (0 + 1) (cell w1)]) ++
                         [LogOldState (0 + 1) (cell w1)] |}).
  set (x2 := {| cell := cell w;
                trace := trace w ++ [LogOldState 1 (cell w)] |}).
  assert ((V2 x1).2 = (V2 x2).2 ∧
          ((V2 x1).2 = Ok tt → cell (V2 x1).1 = cell (V2 x2).1)) as [Hr Hc].
  { destruct (V1_cell_cases w) as [Hsame|(a & Ha & Hnew)].
    - apply V2_same_inputs; simpl; rewrite Hw1, Hsame; done.
    - apply V2_same_inputs; simpl; rewrite Hw1, Hnew, ?Ha; simpl.
      + done.
      + intros k Hk. by apply (V1_keeps_attr a k).
      + intros vm props Hprops. apply derive_maxBus_V1. by eapply Hwf. }
  destruct (V2 x1) as [y1 r1]. destruct (V2 x2) as [y2 r2].
  simpl in Hr, Hc. subst r2. destruct r1 as [[]|err]; [|done].
  specialize (Hc eq_refl).
  destruct (Migrate_done Empty VirtualMachine FromUUID Properties
              DiskImportOperation schemaDefault (0 + 1 + 1)
              {| cell := cell y1;
                 trace := trace y1 ++ [LogNewState (0 + 1 + 1) (cell y1)] |})
    as (z1 & -> & Hz1); [done..|].
  destruct (Migrate_done Empty VirtualMachine FromUUID Properties
              DiskImportOperation schemaDefault (1 + 1)
              {| cell := cell y2;
                 trace := trace y2 ++ [LogNewState (1 + 1) (cell y2)] |})
    as (z2 & -> & Hz2); [done..|].
  simpl in *. split; [done|]. intros _. by rewrite Hz1, Hz2.
Qed.

End Compose.

(** ** The further properties on concrete records *)

Lemma demo_devices_wf bus : in_int32 bus → Forall device_wf (demo.devices bus).
Proof.
  intros Hbus. unfold demo.devices.
  constructor; [|constructor; [|constructor]];
    unfold device_wf, in_int32 in *; simpl; lia.
Qed.

Lemma demo_Properties_wf bus vm props :
  in_int32 bus → demo.Properties bus vm = Ok props → Forall device_wf props.
Proof. intros Hbus [= <-]. by apply demo_devices_wf. Qed.

Lemma in_int32_3 : in_int32 3.
Proof. unfold in_int32. lia. Qed.

Lemma X_V1_loop_order_irrelevant_witness :
  let w := demo.record "vm-old" [("disk.0.size", "10"); ("disk.1.size", "20")] in
  for_each backfill_controller_type
    ["disk.1.size"; "disk.0.controller_type"; "disk.0.size"] w =
  for_each backfill_controller_type ["disk.0.size"; "disk.1.size"] w.
Proof.
  intros w.
  apply (X_V1_loop_order_irrelevant
           ["disk.0.size"; "disk.1.size"]
           ["disk.1.size"; "disk.0.controller_type"; "disk.0.size"]
           ["disk.0.controller_type"] w
           (list_to_map [("disk.0.size", "10"); ("disk.1.size", "20")])).
  - reflexivity.
  - repeat constructor. exists "disk.0.size". vm_compute. reflexivity.
  - apply (bool_decide_unpack _). vm_compute. exact I.
Defined.

Lemma X_maxBus_value_witness :
  derive_maxBus
    (Some (list_to_map [("disk.#", "20"); ("disk.0.key", "2000")]))
    (demo.devices 3) = 3.
Proof.
  rewrite (X_maxBus_value _ (demo.devices 3) (demo_devices_wf 3 in_int32_3)).
  vm_compute. reflexivity.
Defined.

Lemma X_maxBus_order_irrelevant_witness :
  let a : option (gmap string string) :=
    Some (list_to_map [("disk.#", "20"); ("disk.0.key", "2000");
                       ("disk.1.key", "2000")]) in
  foldl (scan_bus (demo.devices 3)) (strconv.Atoi (attr a "disk.#") ÷ 15)
    (reverse (entries a))
  = derive_maxBus a (demo.devices 3).
Proof.
  intros a.
  apply (X_maxBus_order_irrelevant a (demo.devices 3) (reverse (entries a))
           (demo_devices_wf 3 in_int32_3)).
  apply reverse_Permutation.
Defined.

Lemma X_V2_count_is_maxBus_plus_one_witness :
  let w := demo.record "vm-1"
             [("uuid", "u-1"); ("disk.#", "20"); ("disk.0.key", "2000")] in
  ∃ a', Attributes (cell (demo.V2 3 w).1) = Some a' ∧
        a' !! "scsi_controller_count" = Some "4".
Proof.
  intros w.
  assert (migrateVSphereVirtualMachineStateV2 unit demo.FromUUID
            (demo.Properties 3) demo.DiskImportOperation demo.schemaDefault w
          = ((demo.V2 3 w).1, Ok tt)) as Hrun by (vm_compute; reflexivity).
  assert (demo.FromUUID (attr (Attributes (cell w)) "uuid") = Ok tt) as Hvm
    by (vm_compute; reflexivity).
  destruct (X_V2_count_is_maxBus_plus_one unit demo.FromUUID
              (demo.Properties 3) demo.DiskImportOperation demo.schemaDefault
              w (demo.V2 3 w).1 tt (demo.devices 3) Hrun Hvm eq_refl
              (demo_devices_wf 3 in_int32_3))
    as [(a' & Ha' & Hcount) _].
  exists a'. split; [exact Ha'|]. rewrite Hcount. vm_compute. reflexivity.
Defined.

Lemma X_V2_success_record_witness :
  let w := demo.record "vm-old" [("uuid", "ABC-123"); ("disk.#", "1")] in
  ID (cell (demo.V2 0 w).1) = "ABC-123".
Proof.
  intros w.
  assert (migrateVSphereVirtualMachineStateV2 unit demo.FromUUID
            (demo.Properties 0) demo.DiskImportOperation demo.schemaDefault w
          = ((demo.V2 0 w).1, Ok tt)) as Hrun by (vm_compute; reflexivity).
  destruct (X_V2_success_record unit demo.FromUUID (demo.Properties 0)
              demo.DiskImportOperation demo.schemaDefault w
              (demo.V2 0 w).1 Hrun) as [Hid _].
  rewrite Hid. vm_compute. reflexivity.
Defined.

Lemma X_Migrate_failure_witness :
  let w := demo.record "vm-old" [("disk.0.size", "10")] in
  let out := demo.Migrate 0 0 Ref w in
  out.2 = Error "resource ID vm-old has no UUID. State cannot be migrated" ∧
  cell out.1 = cell (migrateVSphereVirtualMachineStateV1
                       InstanceState_Empty w).1 ∧
  has_attr (Attributes (cell w)) "disk.0.controller_type" = false ∧
  has_attr (Attributes (cell out.1)) "disk.0.controller_type" = true.
Proof.
  intros w out.
  assert (resourceVSphereVirtualMachineMigrateState InstanceState_Empty unit
            demo.FromUUID (demo.Properties 0) demo.DiskImportOperation
            demo.schemaDefault 0 Ref w
          = (out.1,
             Error "resource ID vm-old has no UUID. State cannot be migrated"))
    as Hrun by (vm_compute; reflexivity).
  destruct (X_Migrate_failure InstanceState_Empty unit demo.FromUUID
              (demo.Properties 0) demo.DiskImportOperation demo.schemaDefault
              0 w out.1 _ Hrun)
    as (_ & w1 & _ & Hcell & [[Hv _]|[_ Hw1]]); [discriminate Hv|].
  split; [vm_compute; reflexivity|]. split; [by rewrite Hcell|].
  split; vm_compute; reflexivity.
Defined.

Lemma X_Migrate_pointer_witness :
  let w := demo.record "vm-old" [("uuid", "ABC-123"); ("disk.#", "1")] in
  (demo.Migrate 0 0 Nil w).1 = w.
Proof.
  intros w.
  assert (resourceVSphereVirtualMachineMigrateState InstanceState_Empty unit
            demo.FromUUID (demo.Properties 0) demo.DiskImportOperation
            demo.schemaDefault 0 Nil w
          = ((demo.Migrate 0 0 Nil w).1, Ok Nil)) as Hrun
    by (vm_compute; reflexivity).
  destruct (X_Migrate_pointer InstanceState_Empty unit demo.FromUUID
              (demo.Properties 0) demo.DiskImportOperation
              demo.schemaDefault 0 Nil Nil w (demo.Migrate 0 0 Nil w).1 Hrun)
    as [_ Hnil].
  exact (Hnil eq_refl).
Defined.

Lemma X_Migrate_0_as_1_witness :
  let w := demo.record "vm-old"
             [("disk.0.size", "10"); ("uuid", "ABC-123"); ("disk.#", "1");
              ("disk.0.key", "2000")] in
  (demo.Migrate 3 0 Ref w).2 = (demo.Migrate 3 1 Ref w).2.
Proof.
  intros w.
  assert (InstanceState_Empty (cell w) = false) as HE
    by (vm_compute; reflexivity).
  assert (InstanceState_Empty
            (cell (migrateVSphereVirtualMachineStateV1
                     InstanceState_Empty w).1) = false) as HE1
    by (vm_compute; reflexivity).
  exact (proj1 (X_Migrate_0_as_1 InstanceState_Empty unit demo.FromUUID
                  (demo.Properties 3) demo.DiskImportOperation
                  demo.schemaDefault w HE HE1
                  (λ vm props, demo_Properties_wf 3 vm props in_int32_3))).
Defined.
